(** * The two-pane file manager (file_manager.py), embedded and verified

    The Python module is embedded function by function.  Python objects that
    are mutated in place ([PaneState], [FileManager]) live in the state of a
    state-and-exception monad next to the outside world; the operating
    system, the terminal and the interpreter's library routines the module
    calls are the fields of the class [Platform].  [MemFS] is an executable
    instance: a directory tree in memory and a scripted terminal. *)

From Stdlib Require Import ZArith NArith List String Ascii Bool Lia.
From Stdlib Require Import Permutation Sorted DecimalString.
Import ListNotations.
Local Open Scope Z_scope.

(** ** Text

    A Python [str] is a sequence of Unicode code points and a [bytes]
    object a sequence of octets; both are lists of numbers here. *)

Definition str := list N.
Definition bytes := list N.

Definition str_eq_dec : forall a b : str, {a = b} + {a <> b} :=
  list_eq_dec N.eq_dec.

Definition is_cont (b : N) : bool := ((128 <=? b) && (b <=? 191))%N.

(** Range of the second octet of a three-octet sequence led by [b0]. *)
Definition second_ok3 (b0 b1 : N) : bool :=
  (if b0 =? 224 then (160 <=? b1) && (b1 <=? 191)
   else if b0 =? 237 then (128 <=? b1) && (b1 <=? 159)
   else is_cont b1)%N.

(** Range of the second octet of a four-octet sequence led by [b0]. *)
Definition second_ok4 (b0 b1 : N) : bool :=
  (if b0 =? 240 then (144 <=? b1) && (b1 <=? 191)
   else if b0 =? 244 then (128 <=? b1) && (b1 <=? 143)
   else is_cont b1)%N.

(** [bs.decode("utf-8", errors="ignore")]: well-formed sequences give their
    code point; at an ill-formed one the octets read so far (at least one)
    are dropped and decoding goes on behind them. *)
Fixpoint decode_utf8_ignore (bs : bytes) : str :=
  match bs with
  | [] => []
  | b0 :: r0 =>
    if (b0 <? 128)%N then b0 :: decode_utf8_ignore r0
    else if ((194 <=? b0) && (b0 <=? 223))%N then
      match r0 with
      | [] => []
      | b1 :: r1 =>
        if is_cont b1
        then ((b0 - 192) * 64 + (b1 - 128))%N :: decode_utf8_ignore r1
        else decode_utf8_ignore r0
      end
    else if ((224 <=? b0) && (b0 <=? 239))%N then
      match r0 with
      | [] => []
      | b1 :: r1 =>
        if second_ok3 b0 b1 then
          match r1 with
          | [] => []
          | b2 :: r2 =>
            if is_cont b2
            then ((b0 - 224) * 4096 + (b1 - 128) * 64 + (b2 - 128))%N
                   :: decode_utf8_ignore r2
            else decode_utf8_ignore r1
          end
        else decode_utf8_ignore r0
      end
    else if ((240 <=? b0) && (b0 <=? 244))%N then
      match r0 with
      | [] => []
      | b1 :: r1 =>
        if second_ok4 b0 b1 then
          match r1 with
          | [] => []
          | b2 :: r2 =>
            if is_cont b2 then
              match r2 with
              | [] => []
              | b3 :: r3 =>
                if is_cont b3
                then ((b0 - 240) * 262144 + (b1 - 128) * 4096
                      + (b2 - 128) * 64 + (b3 - 128))%N
                       :: decode_utf8_ignore r3
                else decode_utf8_ignore r2
              end
            else decode_utf8_ignore r1
          end
        else decode_utf8_ignore r0
      end
    else decode_utf8_ignore r0
  end.

(** The octets of a literal of this file, which is UTF-8 text. *)
Definition octets (s : string) : bytes :=
  map N_of_ascii (list_ascii_of_string s).

(** A string literal of the Python source. *)
Definition lit (s : string) : str := decode_utf8_ignore (octets s).

(** [str.isspace] of one character: the characters [str.strip()] removes. *)
Definition is_space (c : N) : bool :=
  (((9 <=? c) && (c <=? 13)) || ((28 <=? c) && (c <=? 32))
   || (c =? 133) || (c =? 160) || (c =? 5760)
   || ((8192 <=? c) && (c <=? 8202))
   || (c =? 8232) || (c =? 8233) || (c =? 8239) || (c =? 8287)
   || (c =? 12288))%N.

Fixpoint lstrip (s : str) : str :=
  match s with
  | [] => []
  | c :: r => if is_space c then lstrip r else s
  end.

Definition rstrip (s : str) : str := rev (lstrip (rev s)).

(** [s.strip()] *)
Definition strip (s : str) : str := rstrip (lstrip s).

Definition space : N := 32%N.

(** [c * n] for a one-character string [c]; empty when [n <= 0]. *)
Definition repeat_char (c : N) (n : Z) : str := repeat c (Z.to_nat n).

Definition len {A} (l : list A) : Z := Z.of_nat (List.length l).

(** The format specification [>w] (and [str.rjust]). *)
Definition rjust (w : Z) (s : str) : str := repeat_char space (w - len s) ++ s.

(** [s.ljust(w)] *)
Definition ljust (w : Z) (s : str) : str := s ++ repeat_char space (w - len s).

(** [str(n)] of an integer *)
Definition str_of_Z (n : Z) : str :=
  map N_of_ascii (list_ascii_of_string (NilZero.string_of_int (Z.to_int n))).

(** [sep.join(l)] *)
Fixpoint str_join (sep : str) (l : list str) : str :=
  match l with
  | [] => []
  | [a] => a
  | a :: r => a ++ sep ++ str_join sep r
  end.

(** Comparison of two strings, code point by code point. *)
Fixpoint str_compare (a b : str) : comparison :=
  match a, b with
  | [], [] => Eq
  | [], _ :: _ => Lt
  | _ :: _, [] => Gt
  | x :: a', y :: b' =>
    match (x ?= y)%N with
    | Eq => str_compare a' b'
    | c => c
    end
  end.

Definition str_ltb (a b : str) : bool :=
  match str_compare a b with Lt => true | _ => false end.

(** ** Exceptions

    Every class below derives from [Exception]; [KeyboardInterrupt] and
    [SystemExit], which do not, are raised by none of the calls modelled. *)

Inductive exn_class :=
| FileExistsError | FileNotFoundError | NotADirectoryError
| IsADirectoryError | PermissionError | OSError | ShutilError
| ValueError | IndexError | OverflowError | RuntimeError | CursesError.

Record Exn := mkExn { exn_class_of : exn_class; exn_str : str }.

(** [isinstance(e, OSError)]; [shutil.Error] derives from [OSError]. *)
Definition is_OSError (e : Exn) : bool :=
  match exn_class_of e with
  | FileExistsError | FileNotFoundError | NotADirectoryError
  | IsADirectoryError | PermissionError | OSError | ShutilError => true
  | ValueError | IndexError | OverflowError | RuntimeError | CursesError =>
    false
  end.

Inductive result (A : Type) :=
| Ok (a : A)
| Raise (e : Exn).
Arguments Ok {A} a.
Arguments Raise {A} e.

Definition rbind {A B} (r : result A) (k : A -> result B) : result B :=
  match r with
  | Ok a => k a
  | Raise e => Raise e
  end.

(** ** pathlib: the pure part

    A path is its anchor (rooted or not) and its components; pathlib drops
    empty and [.] components when it parses and keeps [..].  The
    two-slash anchor of POSIX is not told apart from the root. *)

Record Path := mkPath { absolute : bool; parts : list str }.

Definition Path_eq_dec : forall p q : Path, {p = q} + {p <> q}.
Proof.
  decide equality.
  - apply (list_eq_dec str_eq_dec).
  - apply Bool.bool_dec.
Defined.

(** [p.parent]: the root and the empty relative path are their own parent. *)
Definition parent (p : Path) : Path :=
  mkPath (absolute p) (removelast (parts p)).

(** [p.name]: the last component, empty when there is none. *)
Definition name (p : Path) : str := last (parts p) [].

Definition slash : N := 47%N.
Definition dot : N := 46%N.

(** [s.split("/")] *)
Fixpoint split_slash (s : str) : list str :=
  match s with
  | [] => [[]]
  | c :: r =>
    if (c =? slash)%N then [] :: split_slash r
    else match split_slash r with
         | [] => [[c]]
         | w :: ws => (c :: w) :: ws
         end
  end.

Definition kept_component (c : str) : bool :=
  if str_eq_dec c [] then false
  else if str_eq_dec c [dot] then false else true.

Definition parse_parts (s : str) : list str :=
  filter kept_component (split_slash s).

Definition is_rooted (s : str) : bool :=
  match s with
  | c :: _ => (c =? slash)%N
  | [] => false
  end.

(** [p / s] for a string [s] *)
Definition joinpath (p : Path) (s : str) : Path :=
  if is_rooted s then mkPath true (parse_parts s)
  else mkPath (absolute p) (parts p ++ parse_parts s).

(** [str(p)] *)
Definition Path_str (p : Path) : str :=
  if absolute p then slash :: str_join [slash] (parts p)
  else match parts p with
       | [] => [dot]
       | _ => str_join [slash] (parts p)
       end.

(** [repr(s)] of a string without quotes or escapes in it. *)
Definition quoted (s : str) : str := lit "'" ++ s ++ lit "'".

(** [p.with_name(n)] *)
Definition with_name (p : Path) (n : str) : result Path :=
  if str_eq_dec (name p) [] then
    Raise (mkExn ValueError
             (lit "PosixPath(" ++ quoted (Path_str p)
                  ++ lit ") has an empty name"))
  else if str_eq_dec n [] then
    Raise (mkExn ValueError (lit "Invalid name " ++ quoted n))
  else if existsb (N.eqb slash) n then
    Raise (mkExn ValueError (lit "Invalid name " ++ quoted n))
  else if str_eq_dec n [dot] then
    Raise (mkExn ValueError (lit "Invalid name " ++ quoted n))
  else Ok (mkPath (absolute p) (removelast (parts p) ++ [n])).

(** ** Python lists *)

(** The position [l[i]] names, if any: negative indices count from the end. *)
Definition py_pos {A} (l : list A) (i : Z) : option nat :=
  if (0 <=? i) && (i <? len l) then Some (Z.to_nat i)
  else if (- len l <=? i) && (i <? 0) then Some (Z.to_nat (len l + i))
  else None.

(** [l[i]] *)
Definition py_index {A} (l : list A) (i : Z) : result A :=
  match py_pos l i with
  | Some n =>
    match nth_error l n with
    | Some a => Ok a
    | None => Raise (mkExn IndexError (lit "list index out of range"))
    end
  | None => Raise (mkExn IndexError (lit "list index out of range"))
  end.

Fixpoint list_set {A} (l : list A) (n : nat) (a : A) : list A :=
  match l, n with
  | [], _ => []
  | _ :: r, O => a :: r
  | x :: r, S n' => x :: list_set r n' a
  end.

Definition clip (len' : Z) (i : Z) : Z :=
  if i <? 0 then Z.max (i + len') 0 else Z.min i len'.

(** [l[a:b]] *)
Definition py_slice {A} (l : list A) (a b : Z) : list A :=
  let a' := clip (len l) a in
  let b' := clip (len l) b in
  firstn (Z.to_nat (b' - a')) (skipn (Z.to_nat a') l).

(** ** The platform

    What the module calls and does not define: pathlib's and shutil's
    access to the file system, the curses window, [subprocess.Popen], and
    the library routines for case folding, modes and local time.  Queries
    leave the file system as it is; every call may raise. *)

Record stat_result := mkStat { st_mode : Z; st_size : Z; st_mtime : Z }.

Class Platform := {
  Fs : Type;
  Env : Type;
  (** [s.lower()] *)
  str_lower : str -> str;
  (** [stat.filemode(mode)] *)
  filemode : Z -> str;
  (** [datetime.fromtimestamp(t).strftime("%Y-%m-%d %H:%M")] *)
  strftime_local : Z -> result str;
  expanduser : Fs -> Path -> result Path;
  resolve : Fs -> Path -> result Path;
  iterdir : Fs -> Path -> result (list Path);
  is_file : Fs -> Path -> result bool;
  is_dir : Fs -> Path -> result bool;
  exists_ : Fs -> Path -> result bool;
  stat : Fs -> Path -> result stat_result;
  (** [p.unlink(missing_ok=True)] *)
  unlink_missing_ok : Path -> Fs -> Fs * result unit;
  rename : Path -> Path -> Fs -> Fs * result unit;
  (** [p.mkdir(parents=False, exist_ok=False)] *)
  mkdir : Path -> Fs -> Fs * result unit;
  shutil_move : str -> str -> Fs -> Fs * result unit;
  shutil_copytree : Path -> Path -> Fs -> Fs * result unit;
  shutil_copy2 : Path -> Path -> Fs -> Fs * result unit;
  shutil_rmtree : Path -> Fs -> Fs * result unit;
  Popen : list str -> Env -> Env * result unit;
  curs_set : Z -> Env -> Env * result unit;
  keypad : bool -> Env -> Env * result unit;
  erase : Env -> Env * result unit;
  refresh_screen : Env -> Env * result unit;
  echo : Env -> Env * result unit;
  noecho : Env -> Env * result unit;
  getmaxyx : Env -> Env * result (Z * Z);
  (** [addnstr(y, x, s, n)] and [addnstr(y, x, s, n, attr)] *)
  addnstr : Z -> Z -> str -> Z -> option Z -> Env -> Env * result unit;
  getch : Env -> Env * result Z;
  getstr : Z -> Z -> Z -> Env -> Env * result bytes
}.

(** Constants of curses. *)
Definition A_NORMAL : Z := 0.
Definition A_STANDOUT : Z := 65536.
Definition A_REVERSE : Z := 262144.
Definition A_DIM : Z := 1048576.
Definition A_BOLD : Z := 2097152.
Definition KEY_DOWN : Z := 258.
Definition KEY_UP : Z := 259.
Definition KEY_F2 : Z := 266.
Definition KEY_F5 : Z := 269.
Definition KEY_F6 : Z := 270.
Definition KEY_F7 : Z := 271.
Definition KEY_F8 : Z := 272.

(** [ord(c)] of the keys the loop names. *)
Definition ord_q : Z := 113.
Definition ord_k : Z := 107.
Definition ord_j : Z := 106.
Definition ord_r : Z := 114.
Definition ord_5 : Z := 53.
Definition ord_6 : Z := 54.
Definition ord_8 : Z := 56.

(** ** The objects of the module *)

Record PaneState := mkPane {
  path : Path;
  cursor : Z;
  entries : list Path
}.

Definition set_path (p : Path) (s : PaneState) : PaneState :=
  mkPane p (cursor s) (entries s).
Definition set_cursor (c : Z) (s : PaneState) : PaneState :=
  mkPane (path s) c (entries s).
Definition set_entries (l : list Path) (s : PaneState) : PaneState :=
  mkPane (path s) (cursor s) l.

Record FileManager := mkManager {
  panes : list PaneState;
  active : Z;
  status : str
}.

Definition set_panes (l : list PaneState) (m : FileManager) : FileManager :=
  mkManager l (active m) (status m).
Definition set_active (a : Z) (m : FileManager) : FileManager :=
  mkManager (panes m) a (status m).
Definition set_status (s : str) (m : FileManager) : FileManager :=
  mkManager (panes m) (active m) s.

(** ** Sorting with a key

    [sorted(items, key=f)] computes the key of every item once and sorts
    stably on [<] of the keys; here the keys are pairs of a boolean and a
    string, compared as tuples ([False < True]). *)

Definition sort_key : Type := bool * str.

Definition key_lt (a b : sort_key) : bool :=
  if Bool.eqb (fst a) (fst b) then str_ltb (snd a) (snd b)
  else negb (fst a) && fst b.

Fixpoint insert_keyed {A} (x : sort_key * A) (l : list (sort_key * A))
  : list (sort_key * A) :=
  match l with
  | [] => [x]
  | y :: r =>
    if key_lt (fst y) (fst x) then y :: insert_keyed x r else x :: y :: r
  end.

Fixpoint sort_keyed {A} (l : list (sort_key * A)) : list (sort_key * A) :=
  match l with
  | [] => []
  | x :: r => insert_keyed x (sort_keyed r)
  end.

Fixpoint rmapM {A B} (f : A -> result B) (l : list A) : result (list B) :=
  match l with
  | [] => Ok []
  | a :: r =>
    rbind (f a) (fun b => rbind (rmapM f r) (fun bs => Ok (b :: bs)))
  end.

(** ** State and exceptions

    A computation runs on the world and on the object [X] it belongs to
    ([self]).  When it raises, what it changed before stays changed, as
    with objects mutated in place. *)

Section Monad.
Context {P : Platform}.

Record World := mkWorld { w_fs : Fs; w_env : Env }.

Definition M (X A : Type) : Type := World * X -> (World * X) * result A.

Definition ret {X A} (a : A) : M X A := fun s => (s, Ok a).

Definition raise {X A} (e : Exn) : M X A := fun s => (s, Raise e).

Definition bind {X A B} (m : M X A) (k : A -> M X B) : M X B :=
  fun s =>
    match m s with
    | (s', Ok a) => k a s'
    | (s', Raise e) => (s', Raise e)
    end.

Definition self {X} : M X X := fun s => (s, Ok (snd s)).

Definition assign {X} (f : X -> X) : M X unit :=
  fun s => ((fst s, f (snd s)), Ok tt).

Definition of_result {X A} (r : result A) : M X A := fun s => (s, r).

(** A query of the file system. *)
Definition ask_fs {X A} (q : Fs -> result A) : M X A :=
  fun s => (s, q (w_fs (fst s))).

(** An operation on the file system. *)
Definition on_fs {X A} (op : Fs -> Fs * result A) : M X A :=
  fun s =>
    let (fs', r) := op (w_fs (fst s)) in
    ((mkWorld fs' (w_env (fst s)), snd s), r).

(** A call to the terminal or the process table. *)
Definition on_env {X A} (op : Env -> Env * result A) : M X A :=
  fun s =>
    let (env', r) := op (w_env (fst s)) in
    ((mkWorld (w_fs (fst s)) env', snd s), r).

(** [try: m  except Exception as exc: h exc] *)
Definition try_except {X A} (m : M X A) (h : Exn -> M X A) : M X A :=
  fun s =>
    match m s with
    | (s', Ok a) => (s', Ok a)
    | (s', Raise e) => h e s'
    end.

(** [for a in l: f a] *)
Fixpoint for_each {X A} (l : list A) (f : A -> M X unit) : M X unit :=
  match l with
  | [] => ret tt
  | a :: r => bind (f a) (fun _ => for_each r f)
  end.

(** Running a method of the pane [self.panes[i]] of a manager. *)
Definition with_pane {A} (i : Z) (m : M PaneState A) : M FileManager A :=
  fun s =>
    let fm := snd s in
    match py_pos (panes fm) i with
    | None =>
      (s, Raise (mkExn IndexError (lit "list index out of range")))
    | Some n =>
      match nth_error (panes fm) n with
      | None =>
        (s, Raise (mkExn IndexError (lit "list index out of range")))
      | Some p =>
        match m (fst s, p) with
        | ((w', p'), r) => ((w', set_panes (list_set (panes fm) n p') fm), r)
        end
      end
    end.
End Monad.

Notation "x <- m ;; k" := (bind m (fun x => k))
  (at level 61, m at next level, right associativity).
Notation "m ;; k" := (bind m (fun _ => k))
  (at level 61, right associativity).

(** ** file_manager.py *)

Section Program.
Context {P : Platform}.

(** The key of [PaneState.refresh]: [(p.is_file(), p.name.lower())] *)
Definition entry_key (fs : Fs) (p : Path) : result sort_key :=
  rbind (is_file fs p) (fun b => Ok (b, str_lower (name p))).

Definition decorate (fs : Fs) (items : list Path)
  : result (list (sort_key * Path)) :=
  rmapM (fun p => rbind (entry_key fs p) (fun k => Ok (k, p))) items.

(** [PaneState.refresh] *)
Definition PaneState_refresh : M PaneState unit :=
  s <- self ;;
  p0 <- ask_fs (fun fs => expanduser fs (path s)) ;;
  p <- ask_fs (fun fs => resolve fs p0) ;;
  assign (set_path p) ;;
  s <- self ;;
  items <- ask_fs (fun fs => iterdir fs (path s)) ;;
  keyed <- ask_fs (fun fs => decorate fs items) ;;
  assign (set_entries (map snd (sort_keyed keyed))) ;;
  assign (fun s => set_entries (parent (path s) :: entries s) s) ;;
  s <- self ;;
  if cursor s >=? len (entries s)
  then assign (set_cursor (Z.max 0 (len (entries s) - 1)))
  else ret tt.

(** [PaneState.selected] *)
Definition PaneState_selected (s : PaneState) : result Path :=
  match entries s with
  | [] => Ok (path s)
  | _ => py_index (entries s) (cursor s)
  end.

(** [format_entry] *)
Definition format_entry (fs : Fs) (p : Path) : result str :=
  if Path_eq_dec p (parent p) then Ok (lit "[..]")
  else
    rbind (is_dir fs p) (fun d =>
    let nm := name p ++ (if d then lit "/" else lit "") in
    let tried :=
      rbind (stat fs p) (fun info =>
      rbind (is_dir fs p) (fun d' =>
      let size :=
        if d' then lit "<DIR>" else rjust 8 (str_of_Z (st_size info)) in
      rbind (strftime_local (st_mtime info)) (fun mtime =>
      Ok (size, mtime, filemode (st_mode info))))) in
    let handled :=
      match tried with
      | Ok t => Ok t
      | Raise e =>
        if is_OSError e then Ok (lit "?", lit "?", lit "??????????")
        else Raise e
      end in
    rbind handled (fun '(size, mtime, mode) =>
    Ok (mode ++ lit " " ++ rjust 8 size ++ lit " " ++ mtime
             ++ lit " " ++ nm))).

(** [copy_or_move] *)
Definition copy_or_move {X} (src dst_dir : Path) (move : bool) : M X Path :=
  let dst := joinpath dst_dir (name src) in
  e <- ask_fs (fun fs => exists_ fs dst) ;;
  if e : bool then
    raise (mkExn FileExistsError
             (lit "Destination already exists: " ++ Path_str dst))
  else
    (if move then on_fs (shutil_move (Path_str src) (Path_str dst))
     else
       d <- ask_fs (fun fs => is_dir fs src) ;;
       if d : bool then on_fs (shutil_copytree src dst)
       else on_fs (shutil_copy2 src dst)) ;;
    ret dst.

(** [FileManager.__init__] *)
Definition FileManager_init (left right : Path) : FileManager :=
  mkManager [mkPane left 0 []; mkPane right 0 []] 0
    (lit "Tab переключает панель | Enter открыть | F5 копировать | F6 переместить | F8 удалить | q выход").

(** [FileManager.other_index] *)
Definition other_index : M FileManager Z :=
  fm <- self ;; ret (1 - active fm).

(** [FileManager.refresh] *)
Definition FileManager_refresh : M FileManager unit :=
  fm <- self ;;
  for_each (seq 0 (List.length (panes fm)))
           (fun n => with_pane (Z.of_nat n) PaneState_refresh).

(** [FileManager.prompt] up to the value read: the dialogue with the
    window. *)
Definition prompt_raw {X} (text : str) : M X bytes :=
  hw <- on_env getmaxyx ;;
  let h := fst hw in
  let w := snd hw in
  on_env echo ;;
  on_env (addnstr (h - 1) 0 (repeat_char space (w - 1)) (w - 1) None) ;;
  on_env (addnstr (h - 1) 0 text (w - 1) None) ;;
  on_env refresh_screen ;;
  value <- on_env (getstr (h - 1) (Z.min (len text) (w - 2))
                          (w - len text - 2)) ;;
  on_env noecho ;;
  ret value.

(** [FileManager.prompt] *)
Definition prompt {X} (text : str) : M X str :=
  value <- prompt_raw text ;;
  ret (strip (decode_utf8_ignore value)).

(** [FileManager.open_entry] *)
Definition open_entry (entry : Path) : M FileManager unit :=
  d <- ask_fs (fun fs => is_dir fs entry) ;;
  if d : bool then
    r <- ask_fs (fun fs => resolve fs entry) ;;
    fm <- self ;;
    with_pane (active fm) (assign (set_path r)) ;;
    fm <- self ;;
    with_pane (active fm) (assign (set_cursor 0))
  else
    let cmd := [lit "xdg-open"; Path_str entry] in
    try_except
      (on_env (Popen cmd) ;;
       assign (set_status (lit "Открывается: " ++ name entry)))
      (fun exc =>
         assign (set_status (lit "Не удалось открыть: " ++ exn_str exc))).

(** [FileManager.delete_entry] *)
Definition delete_entry (entry : Path) : M FileManager unit :=
  if Path_eq_dec entry (parent entry) then
    assign (set_status (lit "Нельзя удалить родительскую ссылку"))
  else
    d <- ask_fs (fun fs => is_dir fs entry) ;;
    (if d : bool then on_fs (shutil_rmtree entry)
     else on_fs (unlink_missing_ok entry)) ;;
    assign (set_status (lit "Удалено: " ++ name entry)).

(** [FileManager.rename_entry] *)
Definition rename_entry (entry : Path) : M FileManager unit :=
  if Path_eq_dec entry (parent entry) then
    assign (set_status (lit "Нечего переименовывать"))
  else
    new_name <- prompt (lit "Rename " ++ name entry ++ lit " -> ") ;;
    match new_name with
    | [] => assign (set_status (lit "Переименование отменено"))
    | _ =>
      target <- of_result (with_name entry new_name) ;;
      on_fs (rename entry target) ;;
      assign (set_status (lit "Переименовано в " ++ new_name))
    end.

(** [FileManager.make_dir] *)
Definition make_dir : M FileManager unit :=
  nm <- prompt (lit "Create dir: ") ;;
  match nm with
  | [] => assign (set_status (lit "Создание каталога отменено"))
  | _ =>
    fm <- self ;;
    pane <- of_result (py_index (panes fm) (active fm)) ;;
    let target := joinpath (path pane) nm in
    on_fs (mkdir target) ;;
    assign (set_status (lit "Создан каталог: " ++ nm))
  end.
End Program.

Section Loop.
Context {P : Platform}.

(** [range(a, b)] *)
Definition py_range (a b : Z) : list Z :=
  map (fun n => a + Z.of_nat n) (seq 0 (Z.to_nat (b - a))).

(** [enumerate(l)] *)
Definition enumerate {A} (l : list A) : list (Z * A) :=
  combine (py_range 0 (len l)) l.

(** [FileManager.draw_pane]; the pane is only read. *)
Definition draw_pane {X} (pane : PaneState) (x width : Z) (is_active : bool)
  : M X unit :=
  hw <- on_env getmaxyx ;;
  let h := fst hw in
  let title := lit " " ++ Path_str (path pane) ++ lit " " in
  let border_attr := if is_active then A_BOLD else A_DIM in
  on_env (addnstr 0 x (ljust width title) width (Some border_attr)) ;;
  let max_lines := h - 2 in
  let start :=
    if cursor pane >=? max_lines then cursor pane - max_lines + 1 else 0 in
  let visible := py_slice (entries pane) start (start + max_lines) in
  for_each (enumerate visible)
    (fun ie =>
       let i := fst ie in
       let entry := snd ie in
       let y := i + 1 in
       let idx := i + start in
       text <- ask_fs (fun fs => format_entry fs entry) ;;
       let attr :=
         if is_active && (idx =? cursor pane) then A_REVERSE
         else A_NORMAL in
       on_env (addnstr y x (ljust width text) width (Some attr))) ;;
  for_each (py_range (len visible + 1) (h - 1))
    (fun y => on_env (addnstr y x (repeat_char space width) width None)).

(** How the body of the loop is left: by [return] or at its end. *)
Inductive flow := Returned | Next.

(** The statements under [try:] in [run], for the key read, the position
    [ix] of [pane] in [self.panes] and the entry selected. *)
Definition try_body (key ix : Z) (entry : Path) : M FileManager flow :=
  if (key =? ord_q) || (key =? 27) then ret Returned
  else
    (if key =? 9 then
       o <- other_index ;; assign (set_active o)
     else if (key =? KEY_UP) || (key =? ord_k) then
       with_pane ix
         (assign (fun p => set_cursor (Z.max 0 (cursor p - 1)) p))
     else if (key =? KEY_DOWN) || (key =? ord_j) then
       with_pane ix
         (assign (fun p =>
            set_cursor (Z.min (len (entries p) - 1) (cursor p + 1)) p))
     else if (key =? 10) || (key =? 13) then open_entry entry
     else if (key =? KEY_F5) || (key =? ord_5) then
       o <- other_index ;;
       fm <- self ;;
       other <- of_result (py_index (panes fm) o) ;;
       target <- copy_or_move entry (path other) false ;;
       assign (set_status (lit "Скопировано: " ++ name target))
     else if (key =? KEY_F6) || (key =? ord_6) then
       o <- other_index ;;
       fm <- self ;;
       other <- of_result (py_index (panes fm) o) ;;
       target <- copy_or_move entry (path other) true ;;
       assign (set_status (lit "Перемещено: " ++ name target))
     else if (key =? KEY_F8) || (key =? ord_8) then delete_entry entry
     else if key =? KEY_F7 then make_dir
     else if key =? KEY_F2 then rename_entry entry
     else if key =? ord_r then
       FileManager_refresh ;; assign (set_status (lit "Обновлено"))
     else ret tt) ;;
    ret Next.

(** The [except Exception as exc:] clause of [run]. *)
Definition on_exception (exc : Exn) : M FileManager flow :=
  assign (set_status (lit "Ошибка: " ++ exn_str exc)) ;; ret Next.

(** The [try] statement of [run]. *)
Definition guarded (key ix : Z) (entry : Path) : M FileManager flow :=
  try_except (try_body key ix entry) on_exception.

(** The drawing that opens every turn of the loop. *)
Definition draw_screen : M FileManager (Z * Z) :=
  on_env erase ;;
  hw <- on_env getmaxyx ;;
  let h := fst hw in
  let w := snd hw in
  let mid := w / 2 in
  fm <- self ;;
  left <- of_result (py_index (panes fm) 0) ;;
  draw_pane left 0 mid (active fm =? 0) ;;
  fm <- self ;;
  right <- of_result (py_index (panes fm) 1) ;;
  draw_pane right mid (w - mid) (active fm =? 1) ;;
  fm <- self ;;
  on_env (addnstr (h - 1) 0 (ljust (w - 1) (status fm)) (w - 1)
                  (Some A_STANDOUT)) ;;
  on_env refresh_screen ;;
  ret hw.

(** What follows the key in one turn of the loop. *)
Definition react (key : Z) : M FileManager flow :=
  fm <- self ;;
  let ix := active fm in
  pane <- of_result (py_index (panes fm) ix) ;;
  entry <- of_result (PaneState_selected pane) ;;
  f <- guarded key ix entry ;;
  match f with
  | Returned => ret Returned
  | Next => FileManager_refresh ;; ret Next
  end.

(** One turn of [while True:] in [run]. *)
Definition loop_body : M FileManager flow :=
  draw_screen ;;
  key <- on_env getch ;;
  react key.

(** At most [fuel] turns of the loop; [None] when they are used up. *)
Fixpoint run_loop (fuel : nat) : M FileManager (option unit) :=
  match fuel with
  | O => ret None
  | S n =>
    f <- loop_body ;;
    match f with
    | Returned => ret (Some tt)
    | Next => run_loop n
    end
  end.

(** [FileManager.run] *)
Definition run (fuel : nat) : M FileManager (option unit) :=
  on_env (curs_set 0) ;;
  on_env (keypad true) ;;
  FileManager_refresh ;;
  run_loop fuel.
End Loop.

(** ** An executable platform: a tree in memory and a scripted terminal

    The tree holds directories and regular files, no links.  A path names
    the node reached by its components one by one from the root (from the
    working directory when it is not rooted); a component [..] is looked
    up like any other name and no directory holds one, so paths are meant
    in resolved form, the form [PaneState.refresh] gives them.  Operations
    are all-or-nothing, and the time stamp of a directory is not advanced
    when its entries change. *)

Module MemFS.

#[warnings="-register-all"] Inductive node :=
| File (mode mtime : Z) (data : bytes)
| Dir (mode mtime : Z) (children : list (str * node)).

Record fs_state := mkFs {
  root : node;
  cwd : list str;
  home : list str;
  now : Z
}.

Fixpoint assoc (c : str) (l : list (str * node)) : option node :=
  match l with
  | [] => None
  | (c', n) :: r => if str_eq_dec c c' then Some n else assoc c r
  end.

Fixpoint assoc_remove (c : str) (l : list (str * node))
  : list (str * node) :=
  match l with
  | [] => []
  | (c', n) :: r =>
    if str_eq_dec c c' then assoc_remove c r else (c', n) :: assoc_remove c r
  end.

(** Binds [c] to [n]: in place when [c] is bound, else at the end. *)
Fixpoint assoc_put (c : str) (n : node) (l : list (str * node))
  : list (str * node) :=
  match l with
  | [] => [(c, n)]
  | (c', n') :: r =>
    if str_eq_dec c c' then (c, n) :: r else (c', n') :: assoc_put c n r
  end.

Definition assoc_update (c : str) (o : option node) (l : list (str * node))
  : list (str * node) :=
  match o with
  | Some n => assoc_put c n l
  | None => assoc_remove c l
  end.

(** The node a key (the components from the root) names. *)
Fixpoint get (t : node) (k : list str) : option node :=
  match k with
  | [] => Some t
  | c :: k' =>
    match t with
    | File _ _ _ => None
    | Dir _ _ ch =>
      match assoc c ch with
      | Some t' => get t' k'
      | None => None
      end
    end
  end.

(** Replaces what [k] names by [f] of it ([None]: nothing there, or to be
    removed); [None] when the directory that is to hold it is missing. *)
Fixpoint update (t : node) (k : list str) (f : option node -> option node)
  : option node :=
  match k with
  | [] => f (Some t)
  | c :: k' =>
    match t with
    | File _ _ _ => None
    | Dir m mt ch =>
      match k' with
      | [] => Some (Dir m mt (assoc_update c (f (assoc c ch)) ch))
      | _ :: _ =>
        match assoc c ch with
        | Some t' =>
          match update t' k' f with
          | Some t'' => Some (Dir m mt (assoc_put c t'' ch))
          | None => None
          end
        | None => None
        end
      end
    end
  end.

Definition put (t : node) (k : list str) (n : node) : option node :=
  update t k (fun _ => Some n).

Definition remove (t : node) (k : list str) : option node :=
  update t k (fun _ => None).

Definition default_dir_mode : Z := 493.   (* 0o755 *)

(** [os.makedirs]: the directories of [k] that are missing are made, an
    intermediate file stops it. *)
Fixpoint makedirs (now' : Z) (t : node) (k : list str) : option node :=
  match k with
  | [] => Some t
  | c :: k' =>
    match t with
    | File _ _ _ => None
    | Dir m mt ch =>
      let sub :=
        match assoc c ch with
        | Some t' => t'
        | None => Dir default_dir_mode now' []
        end in
      match makedirs now' sub k' with
      | Some sub' => Some (Dir m mt (assoc_put c sub' ch))
      | None => None
      end
    end
  end.

Definition is_dir_node (o : option node) : bool :=
  match o with
  | Some (Dir _ _ _) => true
  | _ => false
  end.

Definition is_file_node (o : option node) : bool :=
  match o with
  | Some (File _ _ _) => true
  | _ => false
  end.

Definition is_some {A} (o : option A) : bool :=
  match o with
  | Some _ => true
  | None => false
  end.

(** Whether a look-up that finds nothing met a file on its way
    ([ENOTDIR]) or just nothing ([ENOENT]). *)
Fixpoint missing_class (t : node) (k : list str) : exn_class :=
  match k with
  | [] => FileNotFoundError
  | c :: k' =>
    match t with
    | File _ _ _ => NotADirectoryError
    | Dir _ _ ch =>
      match assoc c ch with
      | Some t' => missing_class t' k'
      | None => FileNotFoundError
      end
    end
  end.

Definition key_of (fs : fs_state) (p : Path) : list str :=
  if absolute p then parts p else cwd fs ++ parts p.

Definition node_at (fs : fs_state) (p : Path) : option node :=
  get (root fs) (key_of fs p).

Definition with_root (fs : fs_state) (t : node) : fs_state :=
  mkFs t (cwd fs) (home fs) (now fs).

Definition os_error (c : exn_class) (text : string) (p : Path) : Exn :=
  mkExn c (lit text ++ lit ": " ++ quoted (Path_str p)).

Definition missing_error (fs : fs_state) (p : Path) : Exn :=
  match missing_class (root fs) (key_of fs p) with
  | NotADirectoryError => os_error NotADirectoryError "[Errno 20] Not a directory" p
  | _ => os_error FileNotFoundError "[Errno 2] No such file or directory" p
  end.

Fixpoint is_prefix (a b : list str) : bool :=
  match a, b with
  | [], _ => true
  | _ :: _, [] => false
  | x :: a', y :: b' => if str_eq_dec x y then is_prefix a' b' else false
  end.

(** *** Queries *)

Definition m_exists (fs : fs_state) (p : Path) : result bool :=
  Ok (is_some (node_at fs p)).

Definition m_is_dir (fs : fs_state) (p : Path) : result bool :=
  Ok (is_dir_node (node_at fs p)).

Definition m_is_file (fs : fs_state) (p : Path) : result bool :=
  Ok (is_file_node (node_at fs p)).

Definition S_IFDIR : Z := 16384.
Definition S_IFREG : Z := 32768.

Definition m_stat (fs : fs_state) (p : Path) : result stat_result :=
  match node_at fs p with
  | Some (File m mt d) => Ok (mkStat (Z.lor S_IFREG m) (len d) mt)
  | Some (Dir m mt _) => Ok (mkStat (Z.lor S_IFDIR m) 4096 mt)
  | None => Raise (missing_error fs p)
  end.

Definition m_iterdir (fs : fs_state) (p : Path) : result (list Path) :=
  match node_at fs p with
  | Some (Dir _ _ ch) =>
    Ok (map (fun cn => mkPath (absolute p) (parts p ++ [fst cn])) ch)
  | Some (File _ _ _) =>
    Raise (os_error NotADirectoryError "[Errno 20] Not a directory" p)
  | None => Raise (missing_error fs p)
  end.

Definition tilde : N := 126%N.

Definition m_expanduser (fs : fs_state) (p : Path) : result Path :=
  if absolute p then Ok p
  else
    match parts p with
    | (c :: u) :: rest =>
      if (c =? tilde)%N then
        match u with
        | [] => Ok (mkPath true (home fs ++ rest))
        | _ =>
          Raise (mkExn RuntimeError
                   (lit "Could not determine home directory."))
        end
      else Ok p
    | _ => Ok p
    end.

(** Components from the root with [..] taken by dropping its
    predecessor, which is what resolving does where there are no links. *)
Fixpoint normalize (done todo : list str) : list str :=
  match todo with
  | [] => done
  | c :: r =>
    if str_eq_dec c [dot; dot] then normalize (removelast done) r
    else normalize (done ++ [c]) r
  end.

Definition m_resolve (fs : fs_state) (p : Path) : result Path :=
  Ok (mkPath true (normalize [] (key_of fs p))).

(** *** Operations *)

Definition fail {A} (fs : fs_state) (e : Exn) : fs_state * result A :=
  (fs, Raise e).

(** The file system with [n] at [k], when the place for it is there. *)
Definition store (fs : fs_state) (k : list str) (n : node) (p : Path)
  : fs_state * result unit :=
  match put (root fs) k n with
  | Some t => (with_root fs t, Ok tt)
  | None => fail fs (missing_error fs p)
  end.

Definition m_unlink_missing_ok (p : Path) (fs : fs_state)
  : fs_state * result unit :=
  match node_at fs p with
  | Some (File _ _ _) =>
    match remove (root fs) (key_of fs p) with
    | Some t => (with_root fs t, Ok tt)
    | None => fail fs (missing_error fs p)
    end
  | Some (Dir _ _ _) =>
    fail fs (os_error IsADirectoryError "[Errno 21] Is a directory" p)
  | None =>
    match missing_class (root fs) (key_of fs p) with
    | NotADirectoryError => fail fs (missing_error fs p)
    | _ => (fs, Ok tt)
    end
  end.

Definition m_mkdir (p : Path) (fs : fs_state) : fs_state * result unit :=
  match node_at fs p with
  | Some _ => fail fs (os_error FileExistsError "[Errno 17] File exists" p)
  | None =>
    if is_dir_node (get (root fs) (removelast (key_of fs p)))
    then store fs (key_of fs p) (Dir default_dir_mode (now fs) []) p
    else fail fs (missing_error fs p)
  end.

(** [os.rename(src, dst)] *)
Definition m_rename (src dst : Path) (fs : fs_state)
  : fs_state * result unit :=
  let ks := key_of fs src in
  let kd := key_of fs dst in
  match get (root fs) ks with
  | None => fail fs (missing_error fs src)
  | Some n =>
    if negb (is_dir_node (get (root fs) (removelast kd))) then
      fail fs (missing_error fs dst)
    else if list_eq_dec str_eq_dec ks kd then (fs, Ok tt)
    else
      match ks, kd with
      | [], _ | _, [] =>
        fail fs (os_error OSError "[Errno 16] Device or resource busy" src)
      | _ :: _, _ :: _ =>
        if is_dir_node (Some n) && is_prefix ks kd then
          fail fs (os_error OSError "[Errno 22] Invalid argument" src)
        else
          let clash :=
            match n, get (root fs) kd with
            | _, None => None
            | File _ _ _, Some (File _ _ _) => None
            | File _ _ _, Some (Dir _ _ _) =>
              Some (os_error IsADirectoryError
                             "[Errno 21] Is a directory" dst)
            | Dir _ _ _, Some (File _ _ _) =>
              Some (os_error NotADirectoryError
                             "[Errno 20] Not a directory" dst)
            | Dir _ _ _, Some (Dir _ _ []) => None
            | Dir _ _ _, Some (Dir _ _ (_ :: _)) =>
              Some (os_error OSError
                             "[Errno 39] Directory not empty" dst)
            end in
          match clash with
          | Some e => fail fs e
          | None =>
            match remove (root fs) ks with
            | Some t => store (with_root fs t) kd n dst
            | None => fail fs (missing_error fs src)
            end
          end
      end
  end.

(** [shutil.copy2(src, dst)] *)
Definition m_copy2 (src dst : Path) (fs : fs_state)
  : fs_state * result unit :=
  let target :=
    if is_dir_node (node_at fs dst)
    then mkPath (absolute dst) (parts dst ++ parse_parts (name src))
    else dst in
  match node_at fs src with
  | None => fail fs (missing_error fs src)
  | Some (Dir _ _ _) =>
    fail fs (os_error IsADirectoryError "[Errno 21] Is a directory" src)
  | Some (File m mt d) =>
    if list_eq_dec str_eq_dec (key_of fs src) (key_of fs target) then
      fail fs (mkExn ShutilError
                 (quoted (Path_str src) ++ lit " and "
                    ++ quoted (Path_str target) ++ lit " are the same file"))
    else if is_dir_node (node_at fs target) then
      fail fs (os_error IsADirectoryError "[Errno 21] Is a directory" target)
    else store fs (key_of fs target) (File m mt d) target
  end.

(** [shutil.copytree(src, dst)].  A copy into the tree being copied
    descends until the system refuses a path; the directories it leaves
    behind are not kept here. *)
Definition m_copytree (src dst : Path) (fs : fs_state)
  : fs_state * result unit :=
  match node_at fs src with
  | None => fail fs (missing_error fs src)
  | Some (File _ _ _) =>
    fail fs (os_error NotADirectoryError "[Errno 20] Not a directory" src)
  | Some (Dir m mt ch) =>
    match node_at fs dst with
    | Some _ =>
      fail fs (os_error FileExistsError "[Errno 17] File exists" dst)
    | None =>
      if is_prefix (key_of fs src) (key_of fs dst) then
        fail fs (os_error OSError "[Errno 36] File name too long" dst)
      else
        match makedirs (now fs) (root fs) (removelast (key_of fs dst)) with
        | None => fail fs (missing_error fs dst)
        | Some t => store (with_root fs t) (key_of fs dst) (Dir m mt ch) dst
        end
    end
  end.

(** [shutil.rmtree(p)] *)
Definition m_rmtree (p : Path) (fs : fs_state) : fs_state * result unit :=
  match node_at fs p with
  | None => fail fs (missing_error fs p)
  | Some (File _ _ _) =>
    fail fs (os_error NotADirectoryError "[Errno 20] Not a directory" p)
  | Some (Dir m mt _) =>
    match key_of fs p with
    | [] =>
      (with_root fs (Dir m mt []),
       Raise (os_error OSError "[Errno 16] Device or resource busy" p))
    | _ :: _ =>
      match remove (root fs) (key_of fs p) with
      | Some t => (with_root fs t, Ok tt)
      | None => fail fs (missing_error fs p)
      end
    end
  end.

(** The path a string names. *)
Definition Path_of_str (s : str) : Path :=
  mkPath (is_rooted s) (parse_parts s).

(** [shutil.move(src, dst)] on strings: into [dst] when that is a
    directory, by renaming when the system lets it, else by copying and
    removing the source. *)
Definition m_move (src_s dst_s : str) (fs : fs_state)
  : fs_state * result unit :=
  let src := Path_of_str src_s in
  let dst := Path_of_str dst_s in
  let into := is_dir_node (node_at fs dst) in
  let same := if list_eq_dec str_eq_dec (key_of fs src) (key_of fs dst)
              then true else false in
  if into && same then m_rename src dst fs
  else
    let real_dst :=
      if into
      then mkPath (absolute dst) (parts dst ++ parse_parts (name src))
      else dst in
    if into && is_some (node_at fs real_dst) then
      fail fs (mkExn ShutilError
                 (lit "Destination path " ++ quoted (Path_str real_dst)
                      ++ lit " already exists"))
    else
      match m_rename src real_dst fs with
      | (fs', Ok tt) => (fs', Ok tt)
      | (_, Raise _) =>
        if is_dir_node (node_at fs src) then
          if is_prefix (key_of fs src) (key_of fs dst) then
            fail fs (mkExn ShutilError
                       (lit "Cannot move a directory "
                            ++ quoted (Path_str src) ++ lit " into itself "
                            ++ quoted (Path_str dst) ++ lit "."))
          else
            match m_copytree src real_dst fs with
            | (fs', Ok tt) => m_rmtree src fs'
            | (fs', Raise e) => (fs', Raise e)
            end
        else
          match m_copy2 src real_dst fs with
          | (fs', Ok tt) => m_unlink_missing_ok src fs'
          | (fs', Raise e) => (fs', Raise e)
          end
      end.

(** *** Library routines *)

Definition ascii_lower (c : N) : N :=
  (if (65 <=? c) && (c <=? 90) then c + 32 else c)%N.

(** [s.lower()] on the letters A to Z; other characters are left. *)
Definition m_lower (s : str) : str := map ascii_lower s.

Definition has_bits (mode bits : Z) : bool := Z.land mode bits =? bits.

Definition type_char (mode : Z) : string :=
  let t := Z.land mode 61440 in
  if t =? 40960 then "l"
  else if t =? 49152 then "s"
  else if t =? 32768 then "-"
  else if t =? 24576 then "b"
  else if t =? 16384 then "d"
  else if t =? 8192 then "c"
  else if t =? 4096 then "p"
  else "?".

(** The execute column of one class: [x] bit, and the set-id or sticky
    bit shown as [lower] with it and [upper] without. *)
Definition exec_char (mode x special : Z) (lower upper : string) : string :=
  if has_bits mode (Z.lor x special) then lower
  else if has_bits mode special then upper
  else if has_bits mode x then "x"
  else "-".

Definition flag (mode bit : Z) (c : string) : string :=
  if has_bits mode bit then c else "-".

(** [stat.filemode] *)
Definition m_filemode (mode : Z) : str :=
  lit (type_char mode
       ++ flag mode 256 "r" ++ flag mode 128 "w"
       ++ exec_char mode 64 2048 "s" "S"
       ++ flag mode 32 "r" ++ flag mode 16 "w"
       ++ exec_char mode 8 1024 "s" "S"
       ++ flag mode 4 "r" ++ flag mode 2 "w"
       ++ exec_char mode 1 512 "t" "T")%string.

(** The civil date of a day counted from 1970-01-01. *)
Definition civil_of_days (days : Z) : Z * Z * Z :=
  let z := days + 719468 in
  let era := z / 146097 in
  let doe := z - era * 146097 in
  let yoe := (doe - doe / 1460 + doe / 36524 - doe / 146096) / 365 in
  let doy := doe - (365 * yoe + yoe / 4 - yoe / 100) in
  let mp := (5 * doy + 2) / 153 in
  let d := doy - (153 * mp + 2) / 5 + 1 in
  let m := if mp <? 10 then mp + 3 else mp - 9 in
  let y := yoe + era * 400 + (if m <=? 2 then 1 else 0) in
  (y, m, d).

(** [d] in decimal, filled with zeros to [w] digits. *)
Definition zero_padded (w : Z) (d : Z) : str :=
  repeat_char 48%N (w - len (str_of_Z d)) ++ str_of_Z d.

(** [datetime.fromtimestamp(t).strftime("%Y-%m-%d %H:%M")] where local
    time is UTC; a [datetime] holds the years 1 to 9999. *)
Definition m_strftime (t : Z) : result str :=
  let '(y, m, d) := civil_of_days (t / 86400) in
  let secs := t mod 86400 in
  if (y <? 1) || (9999 <? y) then
    Raise (mkExn ValueError
             (lit "year " ++ str_of_Z y ++ lit " is out of range"))
  else
    Ok (zero_padded 4 y ++ lit "-" ++ zero_padded 2 m ++ lit "-"
          ++ zero_padded 2 d ++ lit " " ++ zero_padded 2 (secs / 3600)
          ++ lit ":" ++ zero_padded 2 (secs mod 3600 / 60)).

(** *** The terminal and the process table *)

Record console := mkConsole {
  keys : list Z;                (* what [getch] will read *)
  lines : list bytes;           (* what [getstr] will read *)
  size : Z * Z;                 (* rows and columns of the window *)
  written : list (Z * Z * str); (* what was put on the window, last first *)
  opener : bool;                (* whether xdg-open can be started *)
  started : list (list str)     (* the commands started, last first *)
}.

Definition quiet (c : console) : console * result unit := (c, Ok tt).

Definition m_getmaxyx (c : console) : console * result (Z * Z) :=
  (c, Ok (size c)).

Definition inside (c : console) (y x : Z) : bool :=
  (0 <=? y) && (y <? fst (size c)) && (0 <=? x) && (x <? snd (size c)).

Definition curses_error (what : string) : Exn :=
  mkExn CursesError (lit what ++ lit "() returned ERR").

Definition m_addnstr (y x : Z) (s : str) (n : Z) (attr : option Z)
           (c : console) : console * result unit :=
  if inside c y x then
    let shown := if n <? 0 then s else firstn (Z.to_nat n) s in
    (mkConsole (keys c) (lines c) (size c) ((y, x, shown) :: written c)
               (opener c) (started c), Ok tt)
  else (c, Raise (curses_error "addnwstr")).

Definition m_erase (c : console) : console * result unit :=
  (mkConsole (keys c) (lines c) (size c) [] (opener c) (started c), Ok tt).

(** [getch]: the next key, and -1 once the input has ended. *)
Definition m_getch (c : console) : console * result Z :=
  match keys c with
  | [] => (c, Ok (-1))
  | k :: r =>
    (mkConsole r (lines c) (size c) (written c) (opener c) (started c), Ok k)
  end.

(** [getstr(y, x, n)]: the next line, at most [n] octets of it. *)
Definition m_getstr (y x n : Z) (c : console) : console * result bytes :=
  if inside c y x then
    match lines c with
    | [] => (c, Ok [])
    | l :: r =>
      (mkConsole (keys c) r (size c) (written c) (opener c) (started c),
       Ok (if n <? 0 then l else firstn (Z.to_nat n) l))
    end
  else (c, Raise (curses_error "wmove")).

Definition m_Popen (cmd : list str) (c : console) : console * result unit :=
  if opener c then
    (mkConsole (keys c) (lines c) (size c) (written c) (opener c)
               (cmd :: started c), Ok tt)
  else
    (c, Raise (mkExn FileNotFoundError
                 (lit "[Errno 2] No such file or directory: "
                      ++ quoted (hd [] cmd)))).

#[export] Instance platform : Platform := {|
  Fs := fs_state;
  Env := console;
  str_lower := m_lower;
  filemode := m_filemode;
  strftime_local := m_strftime;
  expanduser := m_expanduser;
  resolve := m_resolve;
  iterdir := m_iterdir;
  is_file := m_is_file;
  is_dir := m_is_dir;
  exists_ := m_exists;
  stat := m_stat;
  unlink_missing_ok := m_unlink_missing_ok;
  rename := m_rename;
  mkdir := m_mkdir;
  shutil_move := m_move;
  shutil_copytree := m_copytree;
  shutil_copy2 := m_copy2;
  shutil_rmtree := m_rmtree;
  Popen := m_Popen;
  curs_set := fun _ => quiet;
  keypad := fun _ => quiet;
  erase := m_erase;
  refresh_screen := quiet;
  echo := quiet;
  noecho := quiet;
  getmaxyx := m_getmaxyx;
  addnstr := m_addnstr;
  getch := m_getch;
  getstr := m_getstr
|}.

(** *** A small world to run the program in

    [/a/b/x.txt], [/a/Readme], [/a/notes.txt] and the empty [/c]. *)

Definition file (s : string) : node := File 420 0 (octets s).

Definition sample_root : node :=
  Dir 493 0
    [(lit "a",
      Dir 493 86400
        [(lit "notes.txt", file "n");
         (lit "b", Dir 493 3600 [(lit "x.txt", file "hello")]);
         (lit "Readme", file "r")]);
     (lit "c", Dir 493 0 [])].

Definition sample_fs : fs_state :=
  mkFs sample_root [lit "a"] [lit "c"] 1000.

Definition sample_console (ks : list Z) (ls : list bytes) : console :=
  mkConsole ks ls (24, 80) [] false [].

Definition sample_world (ks : list Z) (ls : list bytes) : World :=
  mkWorld sample_fs (sample_console ks ls).

Definition at_ (l : list string) : Path := mkPath true (map lit l).

(** The listing of [/a]. *)
Definition listing_a : list Path :=
  [at_ []; at_ ["a"; "b"]; at_ ["a"; "notes.txt"]; at_ ["a"; "Readme"]]%string.

(** A manager with both panes on [/a], the left one active with its
    cursor on [notes.txt]. *)
Definition sample_manager : FileManager :=
  mkManager [mkPane (at_ ["a"%string]) 2 listing_a;
             mkPane (at_ ["a"%string]) 0 listing_a] 0 (lit "").

(** The same manager with its right pane on [/gone], a directory that has
    been removed since the pane listed it, empty. *)
Definition stale_manager : FileManager :=
  mkManager [mkPane (at_ ["a"%string]) 2 listing_a;
             mkPane (at_ ["gone"%string]) 0 [at_ []]] 0 (lit "").

(** A tree with two names in [/d] that differ in case only. *)
Definition twins_fs : fs_state :=
  mkFs (Dir 493 0
          [(lit "d",
            Dir 493 0
              [(lit "Readme", file "1");
               (lit "b", Dir 493 0 []);
               (lit "README", file "2")])])
       [lit "d"] [] 0.
End MemFS.

(** ** A tree that also holds sockets

    The platform of [MemFS] with one difference: a node kept as a file is a
    regular file only when the type bits of its mode say so, as
    [Path.is_file] has it.  A file node whose mode carries [S_IFSOCK] is a
    socket: not a directory and not a regular file. *)

Module SockFS.
Import MemFS.

Definition S_IFMT : Z := 61440.
Definition S_IFSOCK : Z := 49152.

Definition s_is_file (fs : fs_state) (p : Path) : result bool :=
  match m_stat fs p with
  | Ok info => Ok (Z.land (st_mode info) S_IFMT =? S_IFREG)
  | Raise _ => Ok false
  end.

Definition socket_platform : Platform := {|
  Fs := fs_state;
  Env := console;
  str_lower := m_lower;
  filemode := m_filemode;
  strftime_local := m_strftime;
  expanduser := m_expanduser;
  resolve := m_resolve;
  iterdir := m_iterdir;
  is_file := s_is_file;
  is_dir := m_is_dir;
  exists_ := m_exists;
  stat := m_stat;
  unlink_missing_ok := m_unlink_missing_ok;
  rename := m_rename;
  mkdir := m_mkdir;
  shutil_move := m_move;
  shutil_copytree := m_copytree;
  shutil_copy2 := m_copy2;
  shutil_rmtree := m_rmtree;
  Popen := m_Popen;
  curs_set := fun _ => quiet;
  keypad := fun _ => quiet;
  erase := m_erase;
  refresh_screen := quiet;
  echo := quiet;
  noecho := quiet;
  getmaxyx := m_getmaxyx;
  addnstr := m_addnstr;
  getch := m_getch;
  getstr := m_getstr
|}.

(** [/d] with the regular file [c.txt], the directory [b] and the socket
    [asock]. *)
Definition socket_fs : fs_state :=
  mkFs (Dir 493 0
          [(lit "d",
            Dir 493 0
              [(lit "c.txt", file "c");
               (lit "b", Dir 493 0 []);
               (lit "asock", File (Z.lor S_IFSOCK 493) 0 [])])])
       [lit "d"] [] 0.

Definition socket_world : @World socket_platform :=
  @mkWorld socket_platform socket_fs (sample_console [] []).
End SockFS.

(** ** What the properties are stated with *)




(** The order of keyed items: the second's key is not below the first's. *)
Definition key_le {A} (a b : sort_key * A) : Prop :=
  key_lt (fst b) (fst a) = false.

Section Specifications.
Context {P : Platform}.

(** A computation that leaves the file system and its object alone. *)
Definition keeps_fs {X A} (m : M X A) : Prop :=
  forall s s' r, m s = (s', r) ->
                 w_fs (fst s') = w_fs (fst s) /\ snd s' = snd s.

(** The state the [except] clause of [run] leaves: that of the raise, with
    the exception's text in the status line. *)
Definition contained (s : World * FileManager) (e : Exn)
  : World * FileManager :=
  (fst s, set_status (lit "Ошибка: " ++ exn_str e) (snd s)).

(** The key starts a file operation on [entry], which raises [e] and
    leaves the state [s']. *)
Definition operation_raises (key : Z) (entry : Path)
           (s s' : World * FileManager) (e : Exn) : Prop :=
  (((key = KEY_F5 \/ key = ord_5) \/ (key = KEY_F6 \/ key = ord_6))
   /\ exists other,
       py_index (panes (snd s)) (1 - active (snd s)) = Ok other
       /\ copy_or_move entry (path other)
                       (if (key =? KEY_F5) || (key =? ord_5)
                        then false else true) s
          = (s', Raise e))
  \/ ((key = KEY_F8 \/ key = ord_8) /\ delete_entry entry s = (s', Raise e))
  \/ (key = KEY_F7 /\ make_dir s = (s', Raise e))
  \/ (key = KEY_F2 /\ rename_entry entry s = (s', Raise e)).

(** The cursor of a pane is on one of its entries. *)
Definition cursor_ok (s : PaneState) : Prop :=
  0 <= cursor s < len (entries s).
(** The listing [l] of [dir]: the parent first, then the entries of the
    directory in two classes, those that are not regular files and the
    regular files: [is_file] tells of every entry which it is, every
    entry of the first class stands before every entry of the second,
    and within a class the names rise when case is dropped. *)
Definition listing_ordered (fs : Fs) (dir : Path) (l : list Path) : Prop :=
  exists rest items,
    l = parent dir :: rest
    /\ iterdir fs dir = Ok items
    /\ Permutation rest items
    /\ (forall a, In a rest -> exists b, is_file fs a = Ok b)
    /\ (forall i j a b,
           nth_error rest i = Some a -> nth_error rest j = Some b ->
           is_file fs a = Ok false -> is_file fs b = Ok true -> (i < j)%nat)
    /\ (forall i j a b,
           (i < j)%nat ->
           nth_error rest i = Some a -> nth_error rest j = Some b ->
           is_file fs a = is_file fs b ->
           str_compare (str_lower (name a)) (str_lower (name b)) <> Gt).
(** What every step of the manager keeps of a pane: the cursor is not
    negative and the listing, once made, is not empty. *)
Definition pane_inv (p : PaneState) : Prop :=
  0 <= cursor p /\ entries p <> [].

(** A computation that keeps [pane_inv] of every pane, however it ends. *)
Definition keeps_panes {A} (m : M FileManager A) : Prop :=
  forall s s' r,
    m s = (s', r) ->
    Forall pane_inv (panes (snd s)) -> Forall pane_inv (panes (snd s')).

(** A computation that leaves its object alone. *)
Definition keeps_self {X A} (m : M X A) : Prop :=
  forall s s' r, m s = (s', r) -> snd s' = snd s.
End Specifications.

Section MoreSpecifications.
Context {P : Platform}.

(** The manager has its two panes and one of them is the active one. *)
Definition two_panes (fm : FileManager) : Prop :=
  List.length (panes fm) = 2%nat /\ (active fm = 0 \/ active fm = 1).

(** A computation that keeps [two_panes], however it ends. *)
Definition keeps_shape {A} (m : M FileManager A) : Prop :=
  forall s s' r, m s = (s', r) -> two_panes (snd s) -> two_panes (snd s').

(** What a turn of the loop relies on: two panes, one of them active, and
    every cursor on an entry. *)
Definition well_formed (fm : FileManager) : Prop :=
  two_panes fm /\ Forall cursor_ok (panes fm).
End MoreSpecifications.

(** Equality of two sort keys. *)
Definition key_eqb (a b : sort_key) : bool :=
  Bool.eqb (fst a) (fst b) && (if str_eq_dec (snd a) (snd b) then true else false).

(** The first row of the entries a pane shows in [rows] rows: the listing
    scrolls as far as the cursor needs. *)
Definition scroll_start (pane : PaneState) (rows : Z) : Z :=
  if cursor pane >=? rows then cursor pane - rows + 1 else 0.

(** The entries shown. *)
Definition visible_entries (pane : PaneState) (rows : Z) : list Path :=
  py_slice (entries pane) (scroll_start pane rows)
           (scroll_start pane rows + rows).

Section MoreSpecifications2.
Context {P : Platform}.

(** The entry has the sort key [k]. *)
Definition has_key (fs : Fs) (k : sort_key) (p : Path) : bool :=
  match entry_key fs p with
  | Ok k' => key_eqb k' k
  | Raise _ => false
  end.
End MoreSpecifications2.

(** * Properties *)

(** ** Text and paths *)

Example lit_marker : lit "[..]" = [91; 46; 46; 93]%N.
Proof. reflexivity. Qed.

Example lit_cyrillic :
  lit "Ошибка: " = [1054; 1096; 1080; 1073; 1082; 1072; 58; 32]%N.
Proof. reflexivity. Qed.

Example decode_ignores_ill_formed :
  decode_utf8_ignore [226; 40; 161; 208; 175; 226; 130]%N = [40; 1071]%N.
Proof. reflexivity. Qed.

Example strip_example : strip (lit "  a b	 ") = lit "a b".
Proof. reflexivity. Qed.

Example str_of_Z_example : rjust 8 (str_of_Z 1234) = lit "    1234".
Proof. reflexivity. Qed.

Example parse_example :
  parse_parts (lit "a//b/./c/") = [lit "a"; lit "b"; lit "c"].
Proof. reflexivity. Qed.

Example slice_example : py_slice [1; 2; 3; 4; 5] (-3) 4 = [3; 4].
Proof. reflexivity. Qed.

Lemma len_nonneg {A} (l : list A) : 0 <= len l.
Proof. unfold len. lia. Qed.

Lemma len_app {A} (a b : list A) : len (a ++ b) = len a + len b.
Proof. unfold len. rewrite length_app. lia. Qed.

Lemma len_cons {A} (a : A) (l : list A) : len (a :: l) = 1 + len l.
Proof. unfold len. cbn [List.length]. lia. Qed.

Lemma len_repeat_char c n : 0 <= n -> len (repeat_char c n) = n.
Proof. intros H. unfold len, repeat_char. rewrite repeat_length. lia. Qed.

Lemma len_rjust w s : w <= len (rjust w s).
Proof.
  unfold rjust. rewrite len_app.
  destruct (Z_le_gt_dec 0 (w - len s)) as [H | H].
  - rewrite len_repeat_char by exact H. lia.
  - pose proof (len_nonneg (repeat_char space (w - len s))). lia.
Qed.

Lemma rjust_wide w s : w <= len s -> rjust w s = s.
Proof.
  intros H. unfold rjust, repeat_char.
  replace (Z.to_nat (w - len s)) with 0%nat by lia. reflexivity.
Qed.

(** A path whose parent is itself has no component, and conversely. *)
Lemma own_parent_iff p : p = parent p <-> parts p = [].
Proof.
  destruct p as [a ps]. unfold parent. simpl. split.
  - intros H. injection H as H.
    destruct ps as [| c r]; [reflexivity |].
    exfalso. apply (f_equal (@List.length str)) in H.
    assert (E : c :: r <> []) by discriminate.
    destruct (exists_last E) as [l [x Hx]]. rewrite Hx in H.
    rewrite removelast_last, length_app in H. simpl in H. lia.
  - intros ->. reflexivity.
Qed.

Lemma parent_of_child a ps c : parent (mkPath a (ps ++ [c])) = mkPath a ps.
Proof. unfold parent. simpl. rewrite removelast_last. reflexivity. Qed.

Lemma name_of_child a ps c : name (mkPath a (ps ++ [c])) = c.
Proof. unfold name. simpl. apply last_last. Qed.

(** ** Computations *)

Section Computations.
Context {P : Platform}.

Lemma bind_ok {X A B} (m : M X A) (k : A -> M X B) s s1 a :
  m s = (s1, Ok a) -> bind m k s = k a s1.
Proof. intros H. unfold bind. rewrite H. reflexivity. Qed.

Lemma bind_raise {X A B} (m : M X A) (k : A -> M X B) s s1 e :
  m s = (s1, Raise e) -> bind m k s = (s1, Raise e).
Proof. intros H. unfold bind. rewrite H. reflexivity. Qed.

Lemma bind_cases {X A B} (m : M X A) (k : A -> M X B) s s' r :
  bind m k s = (s', r) ->
  (exists s1 a, m s = (s1, Ok a) /\ k a s1 = (s', r))
  \/ (exists e, m s = (s', Raise e) /\ r = Raise e).
Proof.
  unfold bind. destruct (m s) as [s1 [a | e]]; intros H.
  - left. exists s1, a. split; [reflexivity | exact H].
  - right. exists e. injection H as <- <-. split; reflexivity.
Qed.

Lemma bind_ok_inv {X A B} (m : M X A) (k : A -> M X B) s s' b :
  bind m k s = (s', Ok b) ->
  exists s1 a, m s = (s1, Ok a) /\ k a s1 = (s', Ok b).
Proof.
  intros H. destruct (bind_cases _ _ _ _ _ H) as [Hc | [e [_ Hc]]].
  - exact Hc.
  - discriminate.
Qed.

Lemma keeps_fs_ret {X A} (a : A) : keeps_fs (@ret _ X A a).
Proof. intros s s' r H. injection H as <- _. split; reflexivity. Qed.

Lemma keeps_fs_on_env {X A} (op : Env -> Env * result A) :
  keeps_fs (@on_env _ X A op).
Proof.
  intros s s' r. unfold on_env. destruct (op (w_env (fst s))) as [env' r'].
  intros H. injection H as <- _. split; reflexivity.
Qed.

Lemma keeps_fs_bind {X A B} (m : M X A) (k : A -> M X B) :
  keeps_fs m -> (forall a, keeps_fs (k a)) -> keeps_fs (bind m k).
Proof.
  intros Hm Hk s s' r H.
  destruct (bind_cases _ _ _ _ _ H) as [[s1 [a [H1 H2]]] | [e [H1 _]]].
  - destruct (Hm _ _ _ H1) as [E1 E2]. destruct (Hk a _ _ _ H2) as [E3 E4].
    split; congruence.
  - exact (Hm _ _ _ H1).
Qed.

Lemma prompt_raw_keeps_fs {X} text : keeps_fs (@prompt_raw _ X text).
Proof.
  unfold prompt_raw.
  repeat (first [ apply keeps_fs_on_env | apply keeps_fs_ret
                | apply keeps_fs_bind; [| intros ?] ]).
Qed.

Lemma prompt_of_raw {X} text (s s1 : World * X) raw :
  prompt_raw text s = (s1, Ok raw) ->
  prompt text s = (s1, Ok (strip (decode_utf8_ignore raw))).
Proof. intros H. unfold prompt. rewrite (bind_ok _ _ _ _ _ H). reflexivity. Qed.

Lemma prompt_raw_state {X} text (w : World) (x : X) s1 r :
  prompt_raw text (w, x) = (s1, r) ->
  s1 = (fst s1, x) /\ w_fs (fst s1) = w_fs w.
Proof.
  intros H. destruct (prompt_raw_keeps_fs text _ _ _ H) as [E1 E2].
  simpl in E1, E2. destruct s1 as [w1 x1]. simpl in *. subst x1.
  split; [reflexivity | exact E1].
Qed.
End Computations.

(** ** Stripping *)

Lemma lstrip_spec s :
  exists a, s = a ++ lstrip s /\ forallb is_space a = true
            /\ (forall c r, lstrip s = c :: r -> is_space c = false).
Proof.
  induction s as [| c r IH].
  - exists []. repeat split. intros c r H. discriminate.
  - simpl. destruct (is_space c) eqn:E.
    + destruct IH as [a [H1 [H2 H3]]]. exists (c :: a). simpl.
      rewrite E, H2. repeat split; [congruence | exact H3].
    + exists []. repeat split. intros c' r' H. injection H as <- _. exact E.
Qed.



(** [strip s] is [s] without a run of white space at either end, and has
    white space at neither end. *)
Lemma strip_spec s :
  exists a b, s = a ++ strip s ++ b
              /\ forallb is_space a = true /\ forallb is_space b = true
              /\ (forall c r, strip s = c :: r -> is_space c = false)
              /\ (forall r c, strip s = r ++ [c] -> is_space c = false).
Proof.
  destruct (lstrip_spec s) as [a [Ha [Sa Fa]]].
  destruct (lstrip_spec (rev (lstrip s))) as [b [Hb [Sb Fb]]].
  assert (E : lstrip s = strip s ++ rev b).
  { unfold strip, rstrip. rewrite <- (rev_involutive (lstrip s)) at 1.
    rewrite Hb at 1. rewrite rev_app_distr. reflexivity. }
  exists a, (rev b). repeat split.
  - rewrite <- E. exact Ha.
  - exact Sa.
  - rewrite forallb_forall in *. intros x Hx. apply Sb. apply in_rev. exact Hx.
  - intros c r H. destruct (strip s) as [| c' r'] eqn:Es; [discriminate |].
    injection H as -> ->. apply (Fa c (r ++ rev b)). rewrite E. reflexivity.
  - intros r c H. apply (Fb c (rev r)). unfold strip, rstrip in H.
    apply (f_equal (@rev N)) in H. rewrite rev_involutive in H.
    rewrite H, rev_app_distr. reflexivity.
Qed.

(** ** The operations of the manager *)

Section Operations.
Context {P : Platform}.

(** C4.  When [dst_dir / src.name] exists, [copy_or_move] raises
    [FileExistsError] and leaves the world (file system and terminal) and
    the caller's object exactly as they were: the test comes before any
    call that changes something. *)
Theorem copy_or_move_refuses_existing {X} :
  forall (src dst_dir : Path) (move : bool) (w : World) (x : X),
    exists_ (w_fs w) (joinpath dst_dir (name src)) = Ok true ->
    copy_or_move src dst_dir move (w, x)
    = ((w, x),
       Raise (mkExn FileExistsError
                (lit "Destination already exists: "
                     ++ Path_str (joinpath dst_dir (name src))))).
Proof.
  intros src dst_dir move w x H.
  unfold copy_or_move, bind, ask_fs. cbn [fst snd]. rewrite H. reflexivity.
Qed.

Lemma guarded_catches key ix entry s s' e :
  try_body key ix entry s = (s', Raise e) ->
  guarded key ix entry s = (contained s' e, Ok Next).
Proof.
  intros H. unfold guarded, try_except. rewrite H.
  unfold on_exception, contained, bind, assign, ret. reflexivity.
Qed.

Lemma guarded_passes key ix entry s s' f :
  try_body key ix entry s = (s', Ok f) ->
  guarded key ix entry s = (s', Ok f).
Proof. intros H. unfold guarded, try_except. rewrite H. reflexivity. Qed.

Lemma operation_raises_in_try key ix entry s s' e :
  operation_raises key entry s s' e ->
  try_body key ix entry s = (s', Raise e).
Proof.
  unfold operation_raises.
  intros [[Hk [other [Ho Hc]]] | [[Hk Hd] | [[Hk Hm] | [Hk Hr]]]].
  - assert (E : try_body key ix entry s
                = bind (o <- other_index ;;
                        fm <- self ;;
                        other <- of_result (py_index (panes fm) o) ;;
                        target <- copy_or_move entry (path other)
                                    (if (key =? KEY_F5) || (key =? ord_5)
                                     then false else true) ;;
                        assign (set_status
                                  (lit (if (key =? KEY_F5) || (key =? ord_5)
                                        then "Скопировано: "
                                        else "Перемещено: ")
                                       ++ name target)))
                       (fun _ => ret Next) s).
    { destruct Hk as [[-> | ->] | [-> | ->]]; reflexivity. }
    rewrite E. apply bind_raise.
    unfold other_index. unfold bind at 1. unfold bind at 1.
    unfold self at 1, ret at 1. unfold bind at 1. unfold self at 1.
    unfold bind at 1. unfold of_result at 1. cbn [snd]. rewrite Ho.
    apply (bind_raise _ _ _ _ _ Hc).
  - assert (E : try_body key ix entry s
                = bind (delete_entry entry) (fun _ => ret Next) s).
    { destruct Hk as [-> | ->]; reflexivity. }
    rewrite E. apply (bind_raise _ _ _ _ _ Hd).
  - subst key. change (try_body KEY_F7 ix entry s)
      with (bind make_dir (fun _ => ret Next) s).
    apply (bind_raise _ _ _ _ _ Hm).
  - subst key. change (try_body KEY_F2 ix entry s)
      with (bind (rename_entry entry) (fun _ => ret Next) s).
    apply (bind_raise _ _ _ _ _ Hr).
Qed.

Lemma react_unfold key w fm pane entry :
  py_index (panes fm) (active fm) = Ok pane ->
  PaneState_selected pane = Ok entry ->
  react key (w, fm)
  = bind (guarded key (active fm) entry)
         (fun f => match f with
                   | Returned => ret Returned
                   | Next => FileManager_refresh ;; ret Next
                   end) (w, fm).
Proof.
  intros Hp He. unfold react.
  unfold bind at 1. unfold self at 1. cbn [snd].
  unfold bind at 1. unfold of_result at 1. rewrite Hp.
  unfold bind at 1. unfold of_result at 1. rewrite He. reflexivity.
Qed.

(** C3, amended.  When the key read starts a file operation (copy, move,
    delete, make-directory, rename) and the operation raises [e], the
    [try] statement of [run] ends normally with the text of [e] in the
    status line, and the turn goes on to the refresh that closes it.
    That refresh is outside the [try]: when it returns the loop takes its
    next turn, and when it raises, [run] ends with what it raised. *)
Theorem file_operation_exception_contained :
  forall key w fm pane entry s' e,
    py_index (panes fm) (active fm) = Ok pane ->
    PaneState_selected pane = Ok entry ->
    operation_raises key entry (w, fm) s' e ->
    guarded key (active fm) entry (w, fm) = (contained s' e, Ok Next)
    /\ status (snd (contained s' e)) = lit "Ошибка: " ++ exn_str e
    /\ react key (w, fm)
       = (FileManager_refresh ;; ret Next) (contained s' e)
    /\ (forall s0 s1 hw s3 n,
           draw_screen s0 = (s1, Ok hw) ->
           on_env getch s1 = ((w, fm), Ok key) ->
           FileManager_refresh (contained s' e) = (s3, Ok tt) ->
           run_loop (S n) s0 = run_loop n s3)
    /\ (forall s0 s1 hw s3 e3 n,
           draw_screen s0 = (s1, Ok hw) ->
           on_env getch s1 = ((w, fm), Ok key) ->
           FileManager_refresh (contained s' e) = (s3, Raise e3) ->
           run_loop (S n) s0 = (s3, Raise e3)).
Proof.
  intros key w fm pane entry s' e Hp He Hop.
  pose proof (guarded_catches _ (active fm) _ _ _ _
                (operation_raises_in_try _ (active fm) _ _ _ _ Hop)) as Hg.
  assert (Hr : react key (w, fm)
               = (FileManager_refresh ;; ret Next) (contained s' e)).
  { rewrite (react_unfold _ _ _ _ _ Hp He).
    rewrite (bind_ok _ _ _ _ _ Hg). reflexivity. }
  split; [exact Hg |]. split; [reflexivity |]. split; [exact Hr |]. split.
  - intros s0 s1 hw s3 n Hd Hk Hf.
    assert (Hb : loop_body s0 = (s3, Ok Next)).
    { unfold loop_body. rewrite (bind_ok _ _ _ _ _ Hd).
      rewrite (bind_ok _ _ _ _ _ Hk), Hr.
      rewrite (bind_ok _ _ _ _ _ Hf). reflexivity. }
    cbn [run_loop]. rewrite (bind_ok _ _ _ _ _ Hb). reflexivity.
  - intros s0 s1 hw s3 e3 n Hd Hk Hf.
    assert (Hb : loop_body s0 = (s3, Raise e3)).
    { unfold loop_body. rewrite (bind_ok _ _ _ _ _ Hd).
      rewrite (bind_ok _ _ _ _ _ Hk), Hr.
      exact (bind_raise _ _ _ _ _ Hf). }
    cbn [run_loop]. exact (bind_raise _ _ _ _ _ Hb).
Qed.
End Operations.

(** ** Prompts and cancellation *)

Section Prompts.
Context {P : Platform}.

Lemma rename_entry_own_parent entry (s : World * FileManager) :
  entry = parent entry ->
  rename_entry entry s
  = ((fst s, set_status (lit "Нечего переименовывать") (snd s)), Ok tt).
Proof.
  intros H. unfold rename_entry.
  destruct (Path_eq_dec entry (parent entry)) as [_ | N]; [| contradiction].
  reflexivity.
Qed.

Lemma rename_entry_cancelled entry w fm s1 raw :
  entry <> parent entry ->
  prompt_raw (lit "Rename " ++ name entry ++ lit " -> ") (w, fm)
  = (s1, Ok raw) ->
  strip (decode_utf8_ignore raw) = [] ->
  rename_entry entry (w, fm)
  = ((fst s1, set_status (lit "Переименование отменено") fm), Ok tt)
  /\ w_fs (fst s1) = w_fs w.
Proof.
  intros N Hraw Hs.
  destruct (prompt_raw_state _ _ _ _ _ Hraw) as [E1 E2].
  split; [| exact E2].
  unfold rename_entry.
  destruct (Path_eq_dec entry (parent entry)) as [E | _]; [contradiction |].
  rewrite (bind_ok _ _ _ _ _ (prompt_of_raw _ _ _ _ Hraw)), Hs.
  rewrite E1 at 1. reflexivity.
Qed.


(** C9.  Renaming with an empty new name changes nothing on the file
    system and is no error: for every entry, when the name the prompt
    yields is empty, [rename_entry] returns normally, the file system is
    the one it started on and of the manager only the status line
    changes, to the notice that the renaming was cancelled.  (For an
    entry that is its own parent no name is asked; the notice says there
    is nothing to rename.) *)
Theorem rename_with_empty_name_cancels :
  forall entry w fm s1 raw,
    prompt_raw (lit "Rename " ++ name entry ++ lit " -> ") (w, fm)
    = (s1, Ok raw) ->
    strip (decode_utf8_ignore raw) = [] ->
    exists w' notice,
      rename_entry entry (w, fm) = ((w', set_status notice fm), Ok tt)
      /\ w_fs w' = w_fs w
      /\ (entry <> parent entry ->
          w' = fst s1 /\ notice = lit "Переименование отменено")
      /\ (entry = parent entry ->
          w' = w /\ notice = lit "Нечего переименовывать").
Proof.
  intros entry w fm s1 raw Hraw Hs.
  destruct (Path_eq_dec entry (parent entry)) as [E | N].
  - exists w, (lit "Нечего переименовывать").
    rewrite (rename_entry_own_parent _ _ E).
    split; [reflexivity |]. split; [reflexivity |].
    split; [intros N; contradiction | intros _; split; reflexivity].
  - destruct (rename_entry_cancelled _ _ _ _ _ N Hraw Hs) as [H1 H2].
    exists (fst s1), (lit "Переименование отменено").
    split; [exact H1 |]. split; [exact H2 |].
    split; [intros _; split; reflexivity | intros E; contradiction].
Qed.


(** Every prompt hands on what was read, decoded and stripped. *)
Lemma prompt_strips {X} text (s s1 : World * X) raw :
  prompt_raw text s = (s1, Ok raw) ->
  exists v a b,
    prompt text s = (s1, Ok v)
    /\ decode_utf8_ignore raw = a ++ v ++ b
    /\ forallb is_space a = true /\ forallb is_space b = true
    /\ (forall c r, v = c :: r -> is_space c = false)
    /\ (forall r c, v = r ++ [c] -> is_space c = false).
Proof.
  intros Hraw.
  destruct (strip_spec (decode_utf8_ignore raw)) as [a [b Hab]].
  exists (strip (decode_utf8_ignore raw)), a, b.
  split; [exact (prompt_of_raw _ _ _ _ Hraw) | exact Hab].
Qed.
End Prompts.

(** ** The parent entry *)

Section ParentEntry.
Context {P : Platform}.

Lemma format_entry_own_parent fs p :
  p = parent p -> format_entry fs p = Ok (lit "[..]").
Proof.
  intros H. unfold format_entry.
  destruct (Path_eq_dec p (parent p)); [reflexivity | contradiction].
Qed.

Lemma delete_entry_own_parent entry (s : World * FileManager) :
  entry = parent entry ->
  delete_entry entry s
  = ((fst s, set_status (lit "Нельзя удалить родительскую ссылку") (snd s)),
     Ok tt).
Proof.
  intros H. unfold delete_entry.
  destruct (Path_eq_dec entry (parent entry)); [reflexivity | contradiction].
Qed.

(** The line of an entry that is not its own parent starts with the mode
    and the size column: it is longer than the marker. *)
Lemma format_entry_line fs p l :
  p <> parent p -> format_entry fs p = Ok l -> 10 <= len l.
Proof.
  intros N. unfold format_entry.
  destruct (Path_eq_dec p (parent p)) as [E | _]; [contradiction |].
  destruct (is_dir fs p) as [d | e]; [| discriminate]. cbn [rbind].
  match goal with
  | |- rbind ?h _ = _ -> _ => destruct h as [[[size mtime] mode] | e]
  end; [| discriminate].
  cbv beta iota delta [rbind]. intros H. injection H as <-.
  rewrite len_app, len_cons, len_app, len_cons.
  pose proof (len_rjust 8 size). pose proof (len_nonneg mode).
  match goal with
  | |- context [len (rjust 8 size) + (1 + len ?r)] =>
    pose proof (len_nonneg r)
  end.
  lia.
Qed.

(** The parent of a directory two or more levels down is not its own
    parent, so the tests [path == path.parent] do not know it. *)
Lemma deep_parent_not_own a ps c1 c2 :
  parent (mkPath a (ps ++ [c1; c2]))
  <> parent (parent (mkPath a (ps ++ [c1; c2]))).
Proof.
  replace (ps ++ [c1; c2]) with ((ps ++ [c1]) ++ [c2])
    by (rewrite <- app_assoc; reflexivity).
  rewrite !parent_of_child. intros H. injection H as H.
  apply (f_equal (@List.length str)) in H. rewrite length_app in H.
  simpl in H. lia.
Qed.

(** So the parent entry of a pane two or more levels down never gets the
    marker, whatever the file system says of it. *)
Lemma deep_parent_line fs a ps c1 c2 l :
  format_entry fs (parent (mkPath a (ps ++ [c1; c2]))) = Ok l ->
  l <> lit "[..]".
Proof.
  intros H E.
  pose proof (format_entry_line _ _ _ (deep_parent_not_own a ps c1 c2) H) as L.
  rewrite E in L. change (len (lit "[..]")) with 4 in L. lia.
Qed.

(** And the delete key on it goes on to remove it. *)
Lemma deep_parent_deleted a ps c1 c2 (s : World * FileManager) :
  delete_entry (parent (mkPath a (ps ++ [c1; c2]))) s
  = (d <- ask_fs (fun fs =>
                    is_dir fs (parent (mkPath a (ps ++ [c1; c2])))) ;;
     (if d : bool
      then on_fs (shutil_rmtree (parent (mkPath a (ps ++ [c1; c2]))))
      else on_fs (unlink_missing_ok (parent (mkPath a (ps ++ [c1; c2]))))) ;;
     assign (set_status
               (lit "Удалено: "
                    ++ name (parent (mkPath a (ps ++ [c1; c2])))))) s.
Proof.
  unfold delete_entry.
  destruct (Path_eq_dec (parent (mkPath a (ps ++ [c1; c2])))
                        (parent (parent (mkPath a (ps ++ [c1; c2])))))
    as [E | _]; [| reflexivity].
  exfalso. exact (deep_parent_not_own a ps c1 c2 E).
Qed.
End ParentEntry.

(** ** The order of a listing *)

Lemma str_compare_antisym a b : str_compare b a = CompOpp (str_compare a b).
Proof.
  revert b. induction a as [| x a IH]; intros [| y b]; try reflexivity.
  simpl. rewrite (N.compare_antisym x y).
  destruct (x ?= y)%N; simpl; [apply IH | reflexivity | reflexivity].
Qed.

Lemma str_compare_le_trans a b c :
  str_compare a b <> Gt -> str_compare b c <> Gt -> str_compare a c <> Gt.
Proof.
  revert b c. induction a as [| x a IH]; intros [| y b] [| z c]; simpl;
    try congruence.
  destruct (N.compare_spec x y) as [Exy | Lxy | Gxy];
    destruct (N.compare_spec y z) as [Eyz | Lyz | Gyz];
    try congruence; intros H1 H2.
  - subst. rewrite N.compare_refl. exact (IH _ _ H1 H2).
  - subst. rewrite (proj2 (N.compare_lt_iff _ _) Lyz). discriminate.
  - subst. rewrite (proj2 (N.compare_lt_iff _ _) Lxy). discriminate.
  - rewrite (proj2 (N.compare_lt_iff _ _) (N.lt_trans _ _ _ Lxy Lyz)).
    discriminate.
Qed.

Lemma str_ltb_false a b : str_ltb a b = false <-> str_compare b a <> Gt.
Proof.
  unfold str_ltb. rewrite (str_compare_antisym a b).
  destruct (str_compare a b); simpl; split; congruence.
Qed.

Lemma key_lt_asym a b : key_lt a b = true -> key_lt b a = false.
Proof.
  destruct a as [[|] x], b as [[|] y]; unfold key_lt; simpl;
    try congruence; unfold str_ltb; rewrite (str_compare_antisym x y);
    destruct (str_compare x y); simpl; congruence.
Qed.

Lemma key_le_trans a b c :
  key_lt b a = false -> key_lt c b = false -> key_lt c a = false.
Proof.
  destruct a as [[|] x], b as [[|] y], c as [[|] z]; unfold key_lt; simpl;
    try congruence; rewrite !str_ltb_false; apply str_compare_le_trans.
Qed.

Section Sorting.
Context {A : Type}.

Lemma insert_keyed_perm (x : sort_key * A) l :
  Permutation (insert_keyed x l) (x :: l).
Proof.
  induction l as [| y r IH]; simpl; [reflexivity |].
  destruct (key_lt (fst y) (fst x)); [| reflexivity].
  rewrite IH. apply perm_swap.
Qed.

Lemma sort_keyed_perm (l : list (sort_key * A)) :
  Permutation (sort_keyed l) l.
Proof.
  induction l as [| x r IH]; simpl; [reflexivity |].
  rewrite insert_keyed_perm, IH. reflexivity.
Qed.

Lemma insert_keyed_sorted (x : sort_key * A) l :
  StronglySorted key_le l -> StronglySorted key_le (insert_keyed x l).
Proof.
  induction 1 as [| y r Hs IH Hy]; simpl.
  - constructor; constructor.
  - destruct (key_lt (fst y) (fst x)) eqn:E.
    + constructor; [exact IH |].
      apply (Permutation_Forall (Permutation_sym (insert_keyed_perm x r))).
      constructor; [| exact Hy]. unfold key_le. apply key_lt_asym, E.
    + constructor; [constructor; assumption |].
      constructor; [exact E |].
      rewrite Forall_forall in *. intros z Hz. unfold key_le in *.
      exact (key_le_trans _ _ _ E (Hy z Hz)).
Qed.

Lemma sort_keyed_sorted (l : list (sort_key * A)) :
  StronglySorted key_le (sort_keyed l).
Proof.
  induction l as [| x r IH]; simpl; [constructor |].
  apply insert_keyed_sorted, IH.
Qed.
End Sorting.

Lemma StronglySorted_nth {A} (R : A -> A -> Prop) l :
  StronglySorted R l ->
  forall i j a b, (i < j)%nat -> nth_error l i = Some a ->
                  nth_error l j = Some b -> R a b.
Proof.
  induction 1 as [| x r Hs IH Hx]; intros i j a b Hij Ha Hb.
  - destruct i; discriminate.
  - destruct j as [| j]; [lia |]. simpl in Hb. destruct i as [| i].
    + simpl in Ha. injection Ha as <-. rewrite Forall_forall in Hx.
      apply Hx. exact (nth_error_In _ _ Hb).
    + simpl in Ha. apply (IH i j); [lia | assumption | assumption].
Qed.

(** ** Refreshing a pane *)

Section Refresh.
Context {P : Platform}.

Lemma pair_inj {A B} (a c : A) (b d : B) :
  (a, b) = (c, d) -> a = c /\ b = d.
Proof. intros H. injection H as <- <-. split; reflexivity. Qed.

(** [PaneState.refresh], query by query. *)
Lemma refresh_unfold w s :
  PaneState_refresh (w, s)
  = match expanduser (w_fs w) (path s) with
    | Raise e => ((w, s), Raise e)
    | Ok p0 =>
      match resolve (w_fs w) p0 with
      | Raise e => ((w, s), Raise e)
      | Ok p =>
        match iterdir (w_fs w) p with
        | Raise e => ((w, set_path p s), Raise e)
        | Ok items =>
          match decorate (w_fs w) items with
          | Raise e => ((w, set_path p s), Raise e)
          | Ok keyed =>
            let es := parent p :: map snd (sort_keyed keyed) in
            ((w, mkPane p (if cursor s >=? len es
                           then Z.max 0 (len es - 1) else cursor s) es),
             Ok tt)
          end
        end
      end
    end.
Proof.
  unfold PaneState_refresh, bind, self, ask_fs, assign, ret.
  cbn [fst snd path cursor entries set_path set_entries set_cursor].
  destruct (expanduser (w_fs w) (path s)) as [p0 | e]; [| reflexivity].
  destruct (resolve (w_fs w) p0) as [p | e]; [| reflexivity].
  destruct (iterdir (w_fs w) p) as [items | e]; [| reflexivity].
  destruct (decorate (w_fs w) items) as [keyed | e]; [| reflexivity].
  cbv zeta.
  destruct (cursor s >=? len (parent p :: map snd (sort_keyed keyed)));
    reflexivity.
Qed.

(** What a refresh that returns has done. *)
Lemma refresh_returns w s w' s' :
  PaneState_refresh (w, s) = ((w', s'), Ok tt) ->
  exists p0 p items keyed,
    expanduser (w_fs w) (path s) = Ok p0
    /\ resolve (w_fs w) p0 = Ok p
    /\ iterdir (w_fs w) p = Ok items
    /\ decorate (w_fs w) items = Ok keyed
    /\ w' = w
    /\ path s' = p
    /\ entries s' = parent p :: map snd (sort_keyed keyed)
    /\ cursor s' = (if cursor s >=? len (entries s')
                    then Z.max 0 (len (entries s') - 1) else cursor s).
Proof.
  rewrite refresh_unfold.
  destruct (expanduser (w_fs w) (path s)) as [p0 | e]; [| discriminate].
  destruct (resolve (w_fs w) p0) as [p | e] eqn:E1; [| discriminate].
  destruct (iterdir (w_fs w) p) as [items | e] eqn:E2; [| discriminate].
  destruct (decorate (w_fs w) items) as [keyed | e] eqn:E3;
    [| discriminate].
  cbv zeta. intros H. exists p0, p, items, keyed.
  apply pair_inj in H. destruct H as [H _].
  apply pair_inj in H. destruct H as [<- <-].
  repeat split; assumption || reflexivity.
Qed.

(** However a refresh ends, a cursor that was not negative is not, and
    the world is the one it started on. *)
Lemma refresh_keeps_nonneg w s w' s' r :
  PaneState_refresh (w, s) = ((w', s'), r) ->
  w' = w /\ (0 <= cursor s -> 0 <= cursor s').
Proof.
  rewrite refresh_unfold.
  assert (T : forall (x : PaneState) (y : result unit),
             (0 <= cursor s -> 0 <= cursor x) ->
             ((w, x), y) = ((w', s'), r) ->
             w' = w /\ (0 <= cursor s -> 0 <= cursor s')).
  { intros x y Hc H. apply pair_inj in H. destruct H as [H _].
    apply pair_inj in H. destruct H as [<- <-].
    split; [reflexivity | exact Hc]. }
  destruct (expanduser (w_fs w) (path s)) as [p0 | e];
    [| apply T; tauto].
  destruct (resolve (w_fs w) p0) as [p | e]; [| apply T; tauto].
  destruct (iterdir (w_fs w) p) as [items | e];
    [| apply T; cbn [set_path cursor]; tauto].
  destruct (decorate (w_fs w) items) as [keyed | e];
    [| apply T; cbn [set_path cursor]; tauto].
  cbv zeta. apply T. cbn [cursor].
  destruct (cursor s >=? len (parent p :: map snd (sort_keyed keyed))); lia.
Qed.

Lemma refresh_cursor_ok w s w' s' :
  PaneState_refresh (w, s) = ((w', s'), Ok tt) ->
  0 <= cursor s -> cursor_ok s'.
Proof.
  intros H Hc.
  destruct (refresh_returns _ _ _ _ H)
    as [p0 [p [items [keyed [_ [_ [_ [_ [_ [_ [He Hk]]]]]]]]]]].
  unfold cursor_ok. rewrite Hk.
  assert (1 <= len (entries s')) by (rewrite He, len_cons;
    pose proof (len_nonneg (map snd (sort_keyed keyed))); lia).
  destruct (cursor s >=? len (entries s')) eqn:E; lia.
Qed.

Lemma decorate_spec fs items keyed :
  decorate fs items = Ok keyed ->
  map snd keyed = items
  /\ Forall (fun kp => is_file fs (snd kp) = Ok (fst (fst kp))
                       /\ snd (fst kp) = str_lower (name (snd kp))) keyed.
Proof.
  unfold decorate. revert keyed.
  induction items as [| p r IH]; intros keyed; simpl.
  - intros H. injection H as <-. split; [reflexivity | constructor].
  - unfold entry_key.
    destruct (is_file fs p) as [b | e] eqn:Eb; [| discriminate].
    cbn [rbind].
    destruct (rmapM _ r) as [ks | e]; [| discriminate].
    cbn [rbind]. intros H. injection H as <-.
    destruct (IH ks eq_refl) as [H1 H2]. simpl. split.
    + rewrite H1. reflexivity.
    + constructor; [| exact H2]. simpl. split; [exact Eb | reflexivity].
Qed.

(** C6, amended.  A refresh that returns leaves the parent of the
    directory at index 0 of the listing and behind it the entries of the
    directory in the order of the two keys [(is_file, name.lower())]:
    every entry that is not a regular file before every regular file, and
    names in rising order, case dropped, among the entries of each of
    these two classes.  So every directory stands before every regular
    file (on a file system where no path is both, which is every one);
    an entry that is neither stands with the directories. *)
Theorem refresh_listing_ordered :
  forall w s w' s',
    PaneState_refresh (w, s) = ((w', s'), Ok tt) ->
    nth_error (entries s') 0 = Some (parent (path s'))
    /\ listing_ordered (w_fs w') (path s') (entries s')
    /\ ((forall p, is_dir (w_fs w') p = Ok true ->
                   is_file (w_fs w') p = Ok false) ->
        forall i j d f,
          nth_error (tl (entries s')) i = Some d ->
          nth_error (tl (entries s')) j = Some f ->
          is_dir (w_fs w') d = Ok true -> is_file (w_fs w') f = Ok true ->
          (i < j)%nat).
Proof.
  intros w s w' s' H.
  destruct (refresh_returns _ _ _ _ H)
    as [p0 [p [items [keyed [_ [_ [Hi [Hd [-> [Hp [He _]]]]]]]]]]].
  rewrite He, Hp. cbn [tl].
  destruct (decorate_spec _ _ _ Hd) as [Hm Hk].
  assert (Hk' : Forall (fun kp => is_file (w_fs w) (snd kp) = Ok (fst (fst kp))
                                  /\ snd (fst kp) = str_lower (name (snd kp)))
                       (sort_keyed keyed)).
  { exact (Permutation_Forall (Permutation_sym (sort_keyed_perm keyed)) Hk). }
  rewrite Forall_forall in Hk'.
  assert (Nth : forall i a, nth_error (map snd (sort_keyed keyed)) i = Some a ->
                exists k, nth_error (sort_keyed keyed) i = Some (k, a)
                          /\ is_file (w_fs w) a = Ok (fst k)
                          /\ snd k = str_lower (name a)).
  { intros i a Ha. rewrite nth_error_map in Ha.
    destruct (nth_error (sort_keyed keyed) i) as [[k a'] |] eqn:E;
      [| discriminate].
    simpl in Ha. injection Ha as ->. exists k.
    destruct (Hk' _ (nth_error_In _ _ E)) as [H1 H2].
    split; [reflexivity | split; assumption]. }
  pose proof (StronglySorted_nth _ _ (sort_keyed_sorted keyed)) as Srt.
  assert (Classes : forall i j a b,
             nth_error (map snd (sort_keyed keyed)) i = Some a ->
             nth_error (map snd (sort_keyed keyed)) j = Some b ->
             is_file (w_fs w) a = Ok false -> is_file (w_fs w) b = Ok true ->
             (i < j)%nat).
  { intros i j a b Ha Hb Fa Fb.
    destruct (Nth _ _ Ha) as [ka [Na [Fa' _]]].
    destruct (Nth _ _ Hb) as [kb [Nb [Fb' _]]].
    rewrite Fa in Fa'. rewrite Fb in Fb'.
    injection Fa' as Fa'. injection Fb' as Fb'.
    destruct (Nat.lt_trichotomy i j) as [L | [E | G]]; [exact L | |].
    - subst j. rewrite Na in Nb. injection Nb as -> _. congruence.
    - pose proof (Srt _ _ _ _ G Nb Na) as R. unfold key_le, key_lt in R.
      cbn [fst snd] in R. rewrite <- Fa', <- Fb' in R. discriminate. }
  split; [reflexivity |]. split.
  - exists (map snd (sort_keyed keyed)), items.
    split; [reflexivity |]. split; [exact Hi |]. split.
    { rewrite <- Hm. apply Permutation_map, sort_keyed_perm. }
    split; [| split; [exact Classes |]].
    + intros a Ha. apply In_nth_error in Ha. destruct Ha as [i Ha].
      destruct (Nth _ _ Ha) as [k [_ [Fk _]]]. exists (fst k). exact Fk.
    + intros i j a b L Ha Hb Same.
      destruct (Nth _ _ Ha) as [ka [Na [Fa Sa]]].
      destruct (Nth _ _ Hb) as [kb [Nb [Fb Sb]]].
      pose proof (Srt _ _ _ _ L Na Nb) as R. unfold key_le, key_lt in R.
      cbn [fst snd] in R. rewrite Fa, Fb in Same. injection Same as Same.
      rewrite Same, Bool.eqb_reflx in R. rewrite <- Sa, <- Sb.
      apply str_ltb_false. exact R.
  - intros Law i j d f Hd' Hf Dd Ff.
    exact (Classes _ _ _ _ Hd' Hf (Law _ Dd) Ff).
Qed.
End Refresh.


(** ** The cursor *)

Section Cursor.
Context {P : Platform}.

Lemma keeps_self_ret {X A} (a : A) : keeps_self (@ret _ X A a).
Proof. intros s s' r H. injection H as <- _. reflexivity. Qed.

Lemma keeps_self_raise {X A} e : keeps_self (@raise _ X A e).
Proof. intros s s' r H. injection H as <- _. reflexivity. Qed.

Lemma keeps_self_of_result {X A} (x : result A) :
  keeps_self (@of_result _ X A x).
Proof. intros s s' r H. injection H as <- _. reflexivity. Qed.

Lemma keeps_self_self {X} : keeps_self (@self _ X).
Proof. intros s s' r H. injection H as <- _. reflexivity. Qed.

Lemma keeps_self_ask_fs {X A} (q : Fs -> result A) :
  keeps_self (@ask_fs _ X A q).
Proof. intros s s' r H. injection H as <- _. reflexivity. Qed.

Lemma keeps_self_on_fs {X A} (op : Fs -> Fs * result A) :
  keeps_self (@on_fs _ X A op).
Proof.
  intros s s' r. unfold on_fs. destruct (op (w_fs (fst s))).
  intros H. injection H as <- _. reflexivity.
Qed.

Lemma keeps_self_on_env {X A} (op : Env -> Env * result A) :
  keeps_self (@on_env _ X A op).
Proof.
  intros s s' r. unfold on_env. destruct (op (w_env (fst s))).
  intros H. injection H as <- _. reflexivity.
Qed.

Lemma keeps_self_bind {X A B} (m : M X A) (k : A -> M X B) :
  keeps_self m -> (forall a, keeps_self (k a)) -> keeps_self (bind m k).
Proof.
  intros Hm Hk s s' r H.
  destruct (bind_cases _ _ _ _ _ H) as [[s1 [a [H1 H2]]] | [e [H1 _]]].
  - rewrite (Hk a _ _ _ H2). exact (Hm _ _ _ H1).
  - exact (Hm _ _ _ H1).
Qed.

Ltac keeps_self_tac :=
  repeat (first [ apply keeps_self_ret | apply keeps_self_raise
                | apply keeps_self_of_result | apply keeps_self_self
                | apply keeps_self_ask_fs | apply keeps_self_on_fs
                | apply keeps_self_on_env
                | apply keeps_self_bind; [| intros ?]
                | match goal with
                  | |- keeps_self (if ?b then _ else _) => destruct b
                  end ]).

Lemma keeps_self_copy_or_move {X} src dst_dir move :
  keeps_self (@copy_or_move _ X src dst_dir move).
Proof. unfold copy_or_move. keeps_self_tac. Qed.

Lemma keeps_self_prompt {X} text : keeps_self (@prompt _ X text).
Proof. unfold prompt, prompt_raw. keeps_self_tac. Qed.

Lemma keeps_panes_of_self {A} (m : M FileManager A) :
  keeps_self m -> keeps_panes m.
Proof. intros H s s' r Hm Hi. rewrite (H _ _ _ Hm). exact Hi. Qed.

Lemma keeps_panes_bind {A B} (m : M FileManager A) (k : A -> M FileManager B) :
  keeps_panes m -> (forall a, keeps_panes (k a)) -> keeps_panes (bind m k).
Proof.
  intros Hm Hk s s' r H Hi.
  destruct (bind_cases _ _ _ _ _ H) as [[s1 [a [H1 H2]]] | [e [H1 _]]].
  - exact (Hk a _ _ _ H2 (Hm _ _ _ H1 Hi)).
  - exact (Hm _ _ _ H1 Hi).
Qed.

Lemma keeps_panes_try {A} (m : M FileManager A) h :
  keeps_panes m -> (forall e, keeps_panes (h e)) ->
  keeps_panes (try_except m h).
Proof.
  intros Hm Hh s s' r. unfold try_except.
  destruct (m s) as [s1 [a | e]] eqn:E; intros H Hi.
  - injection H as <- _. exact (Hm _ _ _ E Hi).
  - exact (Hh e _ _ _ H (Hm _ _ _ E Hi)).
Qed.

Lemma keeps_panes_assign (f : FileManager -> FileManager) :
  (forall fm, panes (f fm) = panes fm) -> keeps_panes (assign f).
Proof.
  intros Hf s s' r H Hi. injection H as <- _. cbn [snd]. rewrite Hf.
  exact Hi.
Qed.

Lemma Forall_list_set {A} (Q : A -> Prop) l n a :
  Forall Q l -> Q a -> Forall Q (list_set l n a).
Proof.
  intros Hl Ha. revert n. induction Hl as [| x r Hx Hr IH]; intros n.
  - destruct n; constructor.
  - destruct n; simpl; constructor; auto.
Qed.

Lemma list_set_same {A} (l : list A) n a :
  nth_error l n = Some a -> list_set l n a = l.
Proof.
  revert n. induction l as [| x r IH]; intros [| n] H; try discriminate.
  - simpl in H. injection H as ->. reflexivity.
  - simpl in *. rewrite (IH _ H). reflexivity.
Qed.

(** A method of a pane that keeps [pane_inv] keeps it in the manager. *)
Lemma keeps_panes_with_pane {A} i (m : M PaneState A) :
  (forall w p w' p' r, m (w, p) = ((w', p'), r) -> pane_inv p -> pane_inv p') ->
  keeps_panes (with_pane i m).
Proof.
  intros Hm [w fm] s' r. unfold with_pane. cbn [fst snd].
  destruct (py_pos (panes fm) i) as [n |];
    [| intros H Hi; injection H as <- _; exact Hi].
  destruct (nth_error (panes fm) n) as [p |] eqn:En;
    [| intros H Hi; injection H as <- _; exact Hi].
  destruct (m (w, p)) as [[w' p'] r'] eqn:Em.
  intros H Hi. injection H as <- _. cbn [snd set_panes panes].
  apply Forall_list_set; [exact Hi |].
  apply (Hm _ _ _ _ _ Em). rewrite Forall_forall in Hi.
  exact (Hi _ (nth_error_In _ _ En)).
Qed.

Lemma with_pane_at w fm i n p (m : M PaneState unit) :
  py_pos (panes fm) i = Some n ->
  nth_error (panes fm) n = Some p ->
  with_pane i m (w, fm)
  = ((fst (fst (m (w, p))),
      set_panes (list_set (panes fm) n (snd (fst (m (w, p))))) fm),
     snd (m (w, p))).
Proof.
  intros Hn Hp. unfold with_pane. cbn [fst snd]. rewrite Hn, Hp.
  destruct (m (w, p)) as [[w' p'] r]. reflexivity.
Qed.

Lemma refresh_keeps_inv w p w' p' r :
  PaneState_refresh (w, p) = ((w', p'), r) -> pane_inv p -> pane_inv p'.
Proof.
  intros H [Hc He]. destruct (refresh_keeps_nonneg _ _ _ _ _ H) as [_ Hn].
  split; [exact (Hn Hc) |].
  rewrite refresh_unfold in H.
  destruct (expanduser (w_fs w) (path p)) as [p0 | e];
    [| injection H as _ <- _; exact He].
  destruct (resolve (w_fs w) p0) as [q | e];
    [| injection H as _ <- _; exact He].
  destruct (iterdir (w_fs w) q) as [items | e];
    [| injection H as _ <- _; exact He].
  destruct (decorate (w_fs w) items) as [keyed | e];
    [| injection H as _ <- _; exact He].
  cbv zeta in H. apply pair_inj in H. destruct H as [H _].
  apply pair_inj in H. destruct H as [_ <-]. discriminate.
Qed.

Lemma keeps_panes_for_each {A} (l : list A) (f : A -> M FileManager unit) :
  (forall a, keeps_panes (f a)) -> keeps_panes (for_each l f).
Proof.
  intros Hf. induction l as [| a r IH]; simpl.
  - apply keeps_panes_of_self, keeps_self_ret.
  - apply keeps_panes_bind; [apply Hf | intros _; exact IH].
Qed.

Lemma keeps_panes_refresh : keeps_panes FileManager_refresh.
Proof.
  unfold FileManager_refresh. apply keeps_panes_bind.
  - apply keeps_panes_of_self, keeps_self_self.
  - intros fm. apply keeps_panes_for_each. intros n.
    apply keeps_panes_with_pane. exact refresh_keeps_inv.
Qed.

Lemma py_pos_nat {A} (l : list A) n :
  (n < List.length l)%nat -> py_pos l (Z.of_nat n) = Some n.
Proof.
  intros H. unfold py_pos, len.
  replace ((0 <=? Z.of_nat n) && (Z.of_nat n <? Z.of_nat (List.length l)))
    with true by (symmetry; apply andb_true_intro; split;
                  [apply Z.leb_le | apply Z.ltb_lt]; lia).
  rewrite Nat2Z.id. reflexivity.
Qed.

Lemma list_set_middle {A} (done : list A) p t q :
  list_set (done ++ p :: t) (List.length done) q = done ++ q :: t.
Proof.
  induction done as [| x r IH]; simpl; [reflexivity |].
  rewrite IH. reflexivity.
Qed.

Lemma nth_error_middle {A} (done : list A) p t :
  nth_error (done ++ p :: t) (List.length done) = Some p.
Proof. induction done as [| x r IH]; simpl; [reflexivity | exact IH]. Qed.

Lemma refresh_panes_from todo :
  forall done ac st w s',
    for_each (seq (List.length done) (List.length todo))
             (fun n => with_pane (Z.of_nat n) PaneState_refresh)
             (w, mkManager (done ++ todo) ac st) = (s', Ok tt) ->
    Forall (fun p => 0 <= cursor p) todo ->
    exists todo',
      s' = (w, mkManager (done ++ todo') ac st) /\ Forall cursor_ok todo'.
Proof.
  induction todo as [| p t IH]; intros done ac st w s' H Hi.
  - simpl in H. injection H as <-. exists []. split; [reflexivity | constructor].
  - cbn [List.length seq for_each] in H.
    destruct (bind_ok_inv _ _ _ _ _ H) as [s1 [[] [H1 H2]]]. clear H.
    rewrite (with_pane_at w _ _ (List.length done) p) in H1.
    2:{ apply py_pos_nat. cbn [panes]. rewrite length_app. simpl. lia. }
    2:{ apply nth_error_middle. }
    destruct (PaneState_refresh (w, p)) as [[w1 p1] r1] eqn:Er.
    cbn [fst snd panes set_panes active status] in H1.
    apply pair_inj in H1. destruct H1 as [<- ->].
    destruct (refresh_keeps_nonneg _ _ _ _ _ Er) as [-> _].
    inversion Hi as [| ? ? Hp Ht]; subst.
    pose proof (refresh_cursor_ok _ _ _ _ Er Hp) as Hok.
    rewrite list_set_middle in H2.
    replace (done ++ p1 :: t) with ((done ++ [p1]) ++ t) in H2
      by (rewrite <- app_assoc; reflexivity).
    replace (S (List.length done)) with (List.length (done ++ [p1])) in H2
      by (rewrite length_app; simpl; lia).
    destruct (IH _ _ _ _ _ H2 Ht) as [todo' [-> Hall]].
    exists (p1 :: todo'). rewrite <- app_assoc. split; [reflexivity |].
    constructor; assumption.
Qed.

(** When the refresh of the manager returns, every cursor is on an entry;
    the world, the active pane and the status line are as before. *)
Lemma refresh_all_ok w fm w' fm' :
  FileManager_refresh (w, fm) = ((w', fm'), Ok tt) ->
  Forall (fun p => 0 <= cursor p) (panes fm) ->
  Forall cursor_ok (panes fm')
  /\ w' = w /\ active fm' = active fm /\ status fm' = status fm.
Proof.
  intros H Hi. unfold FileManager_refresh in H.
  unfold bind at 1 in H. unfold self at 1 in H. cbn [snd] in H.
  destruct fm as [ps ac st]. cbn [panes] in *.
  destruct (refresh_panes_from ps [] ac st w _ H Hi) as [todo' [E Hall]].
  injection E as -> ->. cbn [panes active status app].
  repeat split. exact Hall.
Qed.

Lemma cursor_ok_inv p : cursor_ok p -> pane_inv p.
Proof.
  unfold cursor_ok, pane_inv. intros H. split; [lia |].
  intros E. rewrite E in H. cbn in H. lia.
Qed.

Lemma keeps_panes_set (f : PaneState -> PaneState) i :
  (forall p, pane_inv p -> pane_inv (f p)) ->
  keeps_panes (with_pane i (assign f)).
Proof.
  intros Hf. apply keeps_panes_with_pane.
  intros w p w' p' r H. injection H as _ <- _. apply Hf.
Qed.

Lemma keeps_panes_other_index : keeps_panes other_index.
Proof.
  unfold other_index. apply keeps_panes_of_self.
  apply keeps_self_bind; [apply keeps_self_self | intros; apply keeps_self_ret].
Qed.

(** Follows the shape of a computation down to its calls. *)
Ltac keeps_panes_tac :=
  lazymatch goal with
  | |- keeps_panes (bind _ _) =>
    apply keeps_panes_bind; [keeps_panes_tac | intros ?; keeps_panes_tac]
  | |- keeps_panes (if ?b then _ else _) => destruct b; keeps_panes_tac
  | |- keeps_panes (match ?x with [] => _ | _ :: _ => _ end) =>
    destruct x; keeps_panes_tac
  | |- keeps_panes (try_except _ _) =>
    apply keeps_panes_try; [keeps_panes_tac | intros ?; keeps_panes_tac]
  | |- keeps_panes (assign (set_status _)) =>
    apply keeps_panes_assign; intros ?; reflexivity
  | |- keeps_panes (assign (set_active _)) =>
    apply keeps_panes_assign; intros ?; reflexivity
  | |- keeps_panes FileManager_refresh => apply keeps_panes_refresh
  | |- keeps_panes other_index => apply keeps_panes_other_index
  | |- keeps_panes (with_pane _ (assign _)) => apply keeps_panes_set
  | |- keeps_panes (copy_or_move _ _ _) =>
    apply keeps_panes_of_self, keeps_self_copy_or_move
  | |- keeps_panes (prompt _) => apply keeps_panes_of_self, keeps_self_prompt
  | |- keeps_panes (ret _) => apply keeps_panes_of_self, keeps_self_ret
  | |- keeps_panes (raise _) => apply keeps_panes_of_self, keeps_self_raise
  | |- keeps_panes (of_result _) =>
    apply keeps_panes_of_self, keeps_self_of_result
  | |- keeps_panes self => apply keeps_panes_of_self, keeps_self_self
  | |- keeps_panes (ask_fs _) => apply keeps_panes_of_self, keeps_self_ask_fs
  | |- keeps_panes (on_fs _) => apply keeps_panes_of_self, keeps_self_on_fs
  | |- keeps_panes (on_env _) => apply keeps_panes_of_self, keeps_self_on_env
  | |- _ => idtac
  end.

Lemma keeps_panes_open_entry entry : keeps_panes (open_entry entry).
Proof.
  unfold open_entry. keeps_panes_tac;
    intros p [H1 H2]; split; cbn [cursor entries set_cursor set_path];
    auto; lia.
Qed.

Lemma keeps_panes_delete_entry entry : keeps_panes (delete_entry entry).
Proof. unfold delete_entry. keeps_panes_tac. Qed.

Lemma keeps_panes_rename_entry entry : keeps_panes (rename_entry entry).
Proof. unfold rename_entry. keeps_panes_tac. Qed.

Lemma keeps_panes_make_dir : keeps_panes make_dir.
Proof. unfold make_dir. keeps_panes_tac. Qed.

Lemma keeps_panes_try_body key ix entry : keeps_panes (try_body key ix entry).
Proof.
  unfold try_body. keeps_panes_tac;
    lazymatch goal with
    | |- keeps_panes (open_entry _) => apply keeps_panes_open_entry
    | |- keeps_panes (delete_entry _) => apply keeps_panes_delete_entry
    | |- keeps_panes (rename_entry _) => apply keeps_panes_rename_entry
    | |- keeps_panes make_dir => apply keeps_panes_make_dir
    | |- _ => intros p [H1 H2]; split;
              cbn [cursor entries set_cursor]; [| exact H2]
    end.
  - lia.
  - assert (1 <= len (entries p)).
    { destruct (entries p); [congruence |]. rewrite len_cons.
      pose proof (len_nonneg l). lia. }
    lia.
Qed.

Lemma keeps_panes_guarded key ix entry : keeps_panes (guarded key ix entry).
Proof.
  unfold guarded, on_exception. apply keeps_panes_try.
  - apply keeps_panes_try_body.
  - intros e. keeps_panes_tac.
Qed.

Lemma react_next key w fm s' :
  react key (w, fm) = (s', Ok Next) ->
  exists pane entry s1,
    py_index (panes fm) (active fm) = Ok pane
    /\ PaneState_selected pane = Ok entry
    /\ guarded key (active fm) entry (w, fm) = (s1, Ok Next)
    /\ FileManager_refresh s1 = (s', Ok tt).
Proof.
  unfold react. intros H.
  unfold bind at 1 in H. unfold self at 1 in H. cbn [snd] in H.
  unfold bind at 1 in H. unfold of_result at 1 in H.
  destruct (py_index (panes fm) (active fm)) as [pane | e];
    [| discriminate].
  unfold bind at 1 in H. unfold of_result at 1 in H.
  destruct (PaneState_selected pane) as [entry | e] eqn:Es; [| discriminate].
  destruct (bind_ok_inv _ _ _ _ _ H) as [s1 [f [Hg Hf]]].
  destruct f; [discriminate |].
  destruct (bind_ok_inv _ _ _ _ _ Hf) as [s2 [[] [Hr Hn]]].
  injection Hn as <-. exists pane, entry, s1.
  repeat split; first [assumption | reflexivity].
Qed.

(** C7.  The cursor of a pane stays on an entry of its listing: the up
    key sets it to [max(0, cursor - 1)], the down key to
    [min(len(entries) - 1, cursor + 1)], which on the last entry changes
    nothing; a refresh that returns ends with the cursor on an entry,
    moved to the last one when the listing has become too short; and a
    turn of the loop, whatever the key, takes panes whose cursors are on
    entries to such panes, as the refresh that opens [run] does with the
    panes the manager is made with. *)
Theorem cursor_stays_on_an_entry :
  (forall key w fm n p entry,
      py_pos (panes fm) (active fm) = Some n ->
      nth_error (panes fm) n = Some p ->
      (key = KEY_UP \/ key = ord_k ->
       try_body key (active fm) entry (w, fm)
       = ((w, set_panes
                (list_set (panes fm) n
                          (set_cursor (Z.max 0 (cursor p - 1)) p)) fm),
          Ok Next))
      /\ (key = KEY_DOWN \/ key = ord_j ->
          try_body key (active fm) entry (w, fm)
          = ((w, set_panes
                   (list_set (panes fm) n
                      (set_cursor
                         (Z.min (len (entries p) - 1) (cursor p + 1)) p))
                   fm),
             Ok Next)
          /\ (cursor p = len (entries p) - 1 ->
              try_body key (active fm) entry (w, fm) = ((w, fm), Ok Next)))
      /\ (cursor_ok p ->
          cursor_ok (set_cursor (Z.max 0 (cursor p - 1)) p)
          /\ cursor_ok
               (set_cursor (Z.min (len (entries p) - 1) (cursor p + 1)) p)))
  /\ (forall w s w' s',
         PaneState_refresh (w, s) = ((w', s'), Ok tt) ->
         0 <= cursor s ->
         cursor_ok s'
         /\ cursor s' = (if cursor s <? len (entries s') then cursor s
                         else len (entries s') - 1))
  /\ (forall key w fm w' fm',
         Forall cursor_ok (panes fm) ->
         react key (w, fm) = ((w', fm'), Ok Next) ->
         Forall cursor_ok (panes fm'))
  /\ (forall left right w w' fm',
         FileManager_refresh (w, FileManager_init left right)
         = ((w', fm'), Ok tt) ->
         Forall cursor_ok (panes fm')).
Proof.
  split; [| split; [| split]].
  - intros key w fm n p entry Hn Hp.
    assert (Up : forall f, try_body KEY_UP (active fm) entry (w, fm)
                           = try_body ord_k (active fm) entry (w, fm)
                   /\ bind (with_pane (active fm) (assign f))
                            (fun _ => ret Next) (w, fm)
                      = ((w, set_panes (list_set (panes fm) n (f p)) fm),
                         Ok Next)).
    { intros f. split; [reflexivity |].
      unfold bind. rewrite (with_pane_at _ _ _ _ _ _ Hn Hp). reflexivity. }
    split; [| split].
    + intros [-> | ->]; exact (proj2 (Up _)).
    + intros Hk.
      assert (E : try_body key (active fm) entry (w, fm)
                  = ((w, set_panes
                           (list_set (panes fm) n
                              (set_cursor
                                 (Z.min (len (entries p) - 1) (cursor p + 1))
                                 p)) fm), Ok Next)).
      { destruct Hk as [-> | ->]; exact (proj2 (Up _)). }
      split; [exact E |]. intros Hl. rewrite E, Hl.
      replace (Z.min (len (entries p) - 1) (len (entries p) - 1 + 1))
        with (cursor p) by lia.
      replace (set_cursor (cursor p) p) with p by (destruct p; reflexivity).
      rewrite (list_set_same _ _ _ Hp). destruct fm; reflexivity.
    + unfold cursor_ok. cbn [cursor entries set_cursor]. lia.
  - intros w s w' s' H Hc. split; [exact (refresh_cursor_ok _ _ _ _ H Hc) |].
    destruct (refresh_returns _ _ _ _ H)
      as [p0 [p [items [keyed [_ [_ [_ [_ [_ [_ [He Hk]]]]]]]]]]].
    rewrite Hk.
    assert (1 <= len (entries s')) by (rewrite He, len_cons;
      pose proof (len_nonneg (map snd (sort_keyed keyed))); lia).
    destruct (cursor s >=? len (entries s')) eqn:E1;
      destruct (cursor s <? len (entries s')) eqn:E2; lia.
  - intros key w fm w' fm' Hok H.
    destruct (react_next _ _ _ _ H) as [pane [entry [[w1 fm1] [_ [_ [Hg Hr]]]]]].
    assert (Hi : Forall pane_inv (panes fm)).
    { rewrite Forall_forall in *. intros x Hx. apply cursor_ok_inv, Hok, Hx. }
    pose proof (keeps_panes_guarded _ _ _ _ _ _ Hg Hi) as Hi1.
    cbn [snd] in Hi1.
    apply (refresh_all_ok _ _ _ _ Hr).
    rewrite Forall_forall in *. intros x Hx. exact (proj1 (Hi1 x Hx)).
  - intros left right w w' fm' H.
    apply (refresh_all_ok _ _ _ _ H). cbn [FileManager_init panes].
    repeat constructor; cbn [cursor]; lia.
Qed.
End Cursor.

(** ** The tree in memory *)

Import MemFS.







Lemma is_prefix_refl k : is_prefix k k = true.
Proof.
  induction k as [| c r IH]; simpl; [reflexivity |].
  destruct (str_eq_dec c c); [exact IH | contradiction].
Qed.












(** ** Paths as strings and back *)














(** ** Copying and moving in the tree *)















(** ** Failures of stat and of listing *)

Section Placeholders.
Context {P : Platform}.

Lemma try_body_refresh ix entry s :
  try_body ord_r ix entry s
  = ((FileManager_refresh ;; assign (set_status (lit "Обновлено"))) ;;
     ret Next) s.
Proof. reflexivity. Qed.

(** C8, as the code has it.  A failure of [stat] (an [OSError]) turns
    into place holders: for an entry that is not its own parent and whose
    [is_dir] test returns, [format_entry] returns the line with ten
    question marks for the mode, a question mark in the eight columns of
    the size and a question mark for the time.  A failure of listing has
    no place holder: the refresh raises it, and raised while the refresh
    key is handled it is caught and shown in the status line. *)
Theorem stat_failure_gives_placeholders :
  (forall fs p d e,
      p <> parent p ->
      is_dir fs p = Ok d ->
      stat fs p = Raise e ->
      is_OSError e = true ->
      format_entry fs p
      = Ok (lit "??????????" ++ lit " " ++ lit "       ?" ++ lit " "
                ++ lit "?" ++ lit " "
                ++ name p ++ (if d then lit "/" else lit "")))
  /\ (forall ix entry s s' e,
         FileManager_refresh s = (s', Raise e) ->
         guarded ord_r ix entry s = (contained s' e, Ok Next)).
Proof.
  split.
  - intros fs p d e N Hd Hs He. unfold format_entry.
    destruct (Path_eq_dec p (parent p)) as [E | _]; [contradiction |].
    rewrite Hd. cbv beta iota zeta delta [rbind]. rewrite Hs, He.
    reflexivity.
  - intros ix entry s s' e H. apply guarded_catches.
    rewrite try_body_refresh.
    apply bind_raise. apply bind_raise. exact H.
Qed.
End Placeholders.

(** ** The program at work on the sample tree *)

Local Open Scope string_scope.

(** C1, where the code departs from it.  The pane is on [/a/b]; after the
    refresh the entry at index 0 is the parent [/a], and its line is that
    of a directory, not the marker: the test [path == path.parent] holds
    for the root only. *)
Theorem parent_entry_of_deep_pane_lacks_marker :
  let s := PaneState_refresh
             (sample_world [] [], mkPane (at_ ["a"; "b"]) 0 []) in
  snd s = Ok tt
  /\ nth_error (entries (snd (fst s))) 0 = Some (parent (path (snd (fst s))))
  /\ parent (path (snd (fst s))) = at_ ["a"]
  /\ format_entry (w_fs (fst (fst s))) (at_ ["a"])
     = Ok (lit "drwxr-xr-x    <DIR> 1970-01-02 00:00 a/")
  /\ format_entry (w_fs (fst (fst s))) (at_ ["a"]) <> Ok (lit "[..]").
Proof. vm_compute. repeat split; try reflexivity. discriminate. Qed.

(** C2, where the code departs from it.  The manager is started on
    [/a/b]; the cursor is on index 0, the parent [/a]; the delete key
    removes [/a] and all below it and reports it as deleted. *)
Theorem delete_on_parent_entry_of_deep_pane_removes_parent :
  let s0 := FileManager_refresh
              (sample_world [] [],
               FileManager_init (at_ ["a"; "b"]) (at_ ["c"])) in
  let fm := snd (fst s0) in
  let s1 := guarded KEY_F8 (active fm) (at_ ["a"]) (fst s0) in
  snd s0 = Ok tt
  /\ (exists pane,
         py_index (panes fm) (active fm) = Ok pane
         /\ cursor pane = 0
         /\ PaneState_selected pane = Ok (parent (path pane))
         /\ parent (path pane) = at_ ["a"])
  /\ snd s1 = Ok Next
  /\ exists_ (w_fs (fst (fst s0))) (at_ ["a"]) = Ok true
  /\ exists_ (w_fs (fst (fst s1))) (at_ ["a"]) = Ok false
  /\ exists_ (w_fs (fst (fst s1))) (at_ ["a"; "notes.txt"]) = Ok false
  /\ status (snd (fst s1)) = lit "Удалено: a".
Proof.
  vm_compute. repeat split; try reflexivity.
  eexists. repeat split; reflexivity.
Qed.

(** C8 refuted as it stands.  Left pane on [/a], right pane on [/a/b]:
    the down key and the delete key remove [/a/b]; the refresh that closes
    the turn cannot list the right pane, and [run] ends with that
    [FileNotFoundError]. *)
Lemma listing_failure_ends_run :
  let s := run 3 (sample_world [KEY_DOWN; KEY_F8] [],
                  FileManager_init (at_ ["a"]) (at_ ["a"; "b"])) in
  exists e,
    snd s = Raise e
    /\ exn_class_of e = FileNotFoundError
    /\ iterdir (w_fs (fst (fst s))) (at_ ["a"; "b"]) = Raise e
    /\ status (snd (fst s)) = lit "Удалено: b".
Proof. vm_compute. eexists. repeat split; reflexivity. Qed.

(** Nor is a line always made when [stat] returns: a time stamp beyond the
    year 9999 makes [datetime.fromtimestamp] raise [ValueError], which
    [except OSError] lets through. *)
Example format_entry_far_mtime :
  format_entry (mkFs (Dir 493 0 [(lit "f", File 420 1000000000000 [])])
                     [] [] 0)
               (at_ ["f"])
  = Raise (mkExn ValueError (lit "year 33658 is out of range")).
Proof. vm_compute. reflexivity. Qed.

(** C3 refuted as it stands.  The left pane is on [/a] with the cursor on
    [notes.txt]; the right pane is on [/gone], which has been removed since
    it was listed.  The copy key raises [FileNotFoundError], which is
    caught and put in the status line; the refresh that closes the turn
    cannot list [/gone], and [run] ends with that exception. *)
Lemma caught_exception_then_refresh_ends_run :
  let s0 := (sample_world [KEY_F5] [], stale_manager) in
  let s := run_loop 3 s0 in
  exists e,
    PaneState_selected (mkPane (at_ ["a"]) 2 listing_a)
    = Ok (at_ ["a"; "notes.txt"])
    /\ snd (copy_or_move (at_ ["a"; "notes.txt"]) (at_ ["gone"]) false s0)
       = Raise (mkExn FileNotFoundError
                  (lit "[Errno 2] No such file or directory: '/gone/notes.txt'"))
    /\ status (snd (fst s))
       = lit "Ошибка: [Errno 2] No such file or directory: '/gone/notes.txt'"
    /\ snd s = Raise e
    /\ exn_class_of e = FileNotFoundError
    /\ iterdir (w_fs (fst (fst s))) (at_ ["gone"]) = Raise e.
Proof. vm_compute. eexists. repeat split; reflexivity. Qed.

(** C6 refuted as it stands.  [/d] holds the regular file [c.txt], the
    directory [b] and the socket [asock].  The socket is not a directory
    and its line is that of a file, yet the key [is_file()] puts it with
    the directories, and its name puts it before [b]. *)
Lemma socket_stands_before_directory :
  let s := @PaneState_refresh SockFS.socket_platform
             (SockFS.socket_world, mkPane (at_ ["d"]) 0 []) in
  snd s = Ok tt
  /\ @iterdir SockFS.socket_platform SockFS.socket_fs (at_ ["d"])
     = Ok [at_ ["d"; "c.txt"]; at_ ["d"; "b"]; at_ ["d"; "asock"]]
  /\ entries (snd (fst s))
     = [at_ []; at_ ["d"; "asock"]; at_ ["d"; "b"]; at_ ["d"; "c.txt"]]
  /\ @is_dir SockFS.socket_platform SockFS.socket_fs (at_ ["d"; "asock"])
     = Ok false
  /\ @is_file SockFS.socket_platform SockFS.socket_fs (at_ ["d"; "asock"])
     = Ok false
  /\ @is_dir SockFS.socket_platform SockFS.socket_fs (at_ ["d"; "b"])
     = Ok true
  /\ @format_entry SockFS.socket_platform SockFS.socket_fs
                   (at_ ["d"; "asock"])
     = Ok (lit "srwxr-xr-x        0 1970-01-01 00:00 asock")
  /\ @format_entry SockFS.socket_platform SockFS.socket_fs (at_ ["d"; "b"])
     = Ok (lit "drwxr-xr-x    <DIR> 1970-01-01 00:00 b/").
Proof. vm_compute. repeat split; reflexivity. Qed.

(** ** The theorems at work on the sample tree *)

(** In the tree a node is a directory or a file, not both. *)
Lemma memfs_dir_not_file (fs : fs_state) p :
  is_dir fs p = Ok true -> is_file fs p = Ok false.
Proof.
  cbn [is_dir is_file platform]. unfold m_is_dir, m_is_file.
  destruct (node_at fs p) as [[| ] |]; intros H; try discriminate.
  reflexivity.
Qed.

Lemma triple_eta {A B C} (p : A * B * C) b c :
  snd (fst p) = b -> snd p = c -> p = ((fst (fst p), b), c).
Proof. destruct p as [[a b'] c']. simpl. intros -> ->. reflexivity. Qed.

Lemma pair_eta {A B} (p : A * B) b : snd p = b -> p = (fst p, b).
Proof. destruct p as [a b']. simpl. intros ->. reflexivity. Qed.

(** A result is known by its parts. *)
Lemma state_eq {P : Platform} {X A} (r : (World * X) * result A) w x c :
  w_fs (fst (fst r)) = w_fs w -> w_env (fst (fst r)) = w_env w ->
  snd (fst r) = x -> snd r = c -> r = ((w, x), c).
Proof.
  destruct r as [[[f v] x'] c'], w as [f' v']. cbn [fst snd w_fs w_env].
  intros -> -> -> ->. reflexivity.
Qed.

(** The refusal of [copy_or_move], as the witnesses need it. *)
Lemma copy_or_move_when_exists {P : Platform} {X} src dst_dir move w (x : X) :
  exists_ (w_fs w) (joinpath dst_dir (name src)) = Ok true ->
  copy_or_move src dst_dir move (w, x)
  = ((w, x),
     Raise (mkExn FileExistsError
              (lit "Destination already exists: "
                   ++ Path_str (joinpath dst_dir (name src)))%list)).
Proof.
  intros H. unfold copy_or_move, bind, ask_fs. cbn [fst snd]. rewrite H.
  reflexivity.
Qed.


(** Copying [/a/notes.txt] into [/a], where it is. *)
Lemma copy_or_move_refuses_existing_witness :
  exists_ (w_fs (sample_world [] []))
          (joinpath (at_ ["a"]) (name (at_ ["a"; "notes.txt"]))) = Ok true
  /\ copy_or_move (at_ ["a"; "notes.txt"]) (at_ ["a"]) false
                  (sample_world [] [], tt)
     = ((sample_world [] [], tt),
        Raise (mkExn FileExistsError
                 (lit "Destination already exists: "
                      ++ Path_str (joinpath (at_ ["a"])
                                            (name (at_ ["a"; "notes.txt"]))))%list)).
Proof.
  split; [vm_compute; reflexivity |].
  apply (copy_or_move_refuses_existing (at_ ["a"; "notes.txt"]) (at_ ["a"])
           false (sample_world [] []) tt).
  vm_compute. reflexivity.
Defined.

(** The copy key on [notes.txt].  With both panes on [/a] the copy is
    refused, the refresh returns and the loop takes its next turn; with
    the other pane on the removed [/gone] the copy fails, the refresh
    raises and [run] ends. *)
Lemma file_operation_exception_contained_witness :
  (let e := mkExn FileExistsError
                  (lit "Destination already exists: /a/notes.txt") in
   let s0 := (sample_world [KEY_F5] [], sample_manager) in
   let w := fst (fst (on_env getch (fst (draw_screen s0)))) in
   let s2 := (w, sample_manager) in
   operation_raises KEY_F5 (at_ ["a"; "notes.txt"]) s2 s2 e
   /\ guarded KEY_F5 (active sample_manager) (at_ ["a"; "notes.txt"]) s2
      = (contained s2 e, Ok Next)
   /\ status (snd (contained s2 e))
      = lit "Ошибка: Destination already exists: /a/notes.txt"
   /\ snd (FileManager_refresh (contained s2 e)) = Ok tt
   /\ run_loop 2 s0
      = run_loop 1 (fst (FileManager_refresh (contained s2 e))))
  /\ (let e := mkExn FileNotFoundError
                  (lit "[Errno 2] No such file or directory: '/gone/notes.txt'") in
      let s0 := (sample_world [KEY_F5] [], stale_manager) in
      let w := fst (fst (on_env getch (fst (draw_screen s0)))) in
      let s2 := (w, stale_manager) in
      operation_raises KEY_F5 (at_ ["a"; "notes.txt"]) s2 s2 e
      /\ exn_class_of (missing_error sample_fs (at_ ["gone"]))
         = FileNotFoundError
      /\ snd (FileManager_refresh (contained s2 e))
         = Raise (missing_error sample_fs (at_ ["gone"]))
      /\ run_loop 2 s0
         = (fst (FileManager_refresh (contained s2 e)),
            Raise (missing_error sample_fs (at_ ["gone"])))).
Proof.
  split.
  - intros e s0 w s2.
    assert (Hx : exists_ (w_fs w)
                   (joinpath (at_ ["a"]) (name (at_ ["a"; "notes.txt"])))
                 = Ok true) by (vm_compute; reflexivity).
    assert (Hop : operation_raises KEY_F5 (at_ ["a"; "notes.txt"]) s2 s2 e).
    { left. split; [left; left; reflexivity |].
      exists (mkPane (at_ ["a"]) 0 listing_a).
      split; [reflexivity |].
      exact (copy_or_move_when_exists (at_ ["a"; "notes.txt"]) (at_ ["a"])
               false w sample_manager Hx). }
    assert (Hd : snd (draw_screen s0) = Ok (24, 80))
      by (vm_compute; reflexivity).
    assert (Hg : on_env getch (fst (draw_screen s0))
                 = ((w, sample_manager), Ok KEY_F5))
      by (unfold w; apply triple_eta; vm_compute; reflexivity).
    assert (Hf : snd (FileManager_refresh (contained s2 e)) = Ok tt)
      by (vm_compute; reflexivity).
    destruct (file_operation_exception_contained KEY_F5 w sample_manager
                (mkPane (at_ ["a"]) 2 listing_a) (at_ ["a"; "notes.txt"])
                s2 e eq_refl eq_refl Hop) as [H1 [_ [_ [H4 _]]]].
    split; [exact Hop |]. split; [exact H1 |].
    split; [vm_compute; reflexivity |]. split; [exact Hf |].
    exact (H4 s0 _ _ _ 1%nat (pair_eta _ _ Hd) Hg (pair_eta _ _ Hf)).
  - intros e s0 w s2.
    assert (Hop : operation_raises KEY_F5 (at_ ["a"; "notes.txt"]) s2 s2 e).
    { left. split; [left; left; reflexivity |].
      exists (mkPane (at_ ["gone"]) 0 [at_ []]).
      split; [reflexivity |].
      apply state_eq; vm_compute; reflexivity. }
    assert (Hd : snd (draw_screen s0) = Ok (24, 80))
      by (vm_compute; reflexivity).
    assert (Hg : on_env getch (fst (draw_screen s0))
                 = ((w, stale_manager), Ok KEY_F5))
      by (unfold w; apply triple_eta; vm_compute; reflexivity).
    assert (Hf : snd (FileManager_refresh (contained s2 e))
                 = Raise (missing_error sample_fs (at_ ["gone"])))
      by (vm_compute; reflexivity).
    destruct (file_operation_exception_contained KEY_F5 w stale_manager
                (mkPane (at_ ["a"]) 2 listing_a) (at_ ["a"; "notes.txt"])
                s2 e eq_refl eq_refl Hop) as [_ [_ [_ [_ H5]]]].
    split; [exact Hop |]. split; [reflexivity |]. split; [exact Hf |].
    exact (H5 s0 _ _ _ _ 1%nat (pair_eta _ _ Hd) Hg (pair_eta _ _ Hf)).
Defined.


(** The listing of [/a]: [b] before the files, [notes.txt] before
    [Readme]. *)
Lemma refresh_listing_ordered_witness :
  PaneState_refresh (sample_world [] [], mkPane (at_ ["a"]) 0 [])
  = ((sample_world [] [], mkPane (at_ ["a"]) 0 listing_a), Ok tt)
  /\ nth_error listing_a 0 = Some (parent (at_ ["a"]))
  /\ listing_ordered sample_fs (at_ ["a"]) listing_a
  /\ (forall i j d f,
         nth_error (tl listing_a) i = Some d ->
         nth_error (tl listing_a) j = Some f ->
         is_dir sample_fs d = Ok true -> is_file sample_fs f = Ok true ->
         (i < j)%nat).
Proof.
  assert (H : PaneState_refresh (sample_world [] [], mkPane (at_ ["a"]) 0 [])
              = ((sample_world [] [], mkPane (at_ ["a"]) 0 listing_a), Ok tt))
    by reflexivity.
  split; [exact H |].
  destruct (refresh_listing_ordered _ _ _ _ H) as [H1 [H2 H3]].
  split; [exact H1 |]. split; [exact H2 |].
  exact (H3 (memfs_dir_not_file (w_fs (sample_world [] [])))).
Defined.

(** A cursor at 7 over the four entries of [/a], and the down key on the
    sample manager. *)
Lemma cursor_stays_on_an_entry_witness :
  PaneState_refresh (sample_world [] [], mkPane (at_ ["a"]) 7 [])
  = ((sample_world [] [], mkPane (at_ ["a"]) 3 listing_a), Ok tt)
  /\ 0 <= 7
  /\ cursor_ok (mkPane (at_ ["a"]) 3 listing_a)
  /\ Forall cursor_ok (panes sample_manager)
  /\ try_body KEY_DOWN (active sample_manager) (at_ ["a"; "notes.txt"])
              (sample_world [] [], sample_manager)
     = ((sample_world [] [],
         set_panes
           (list_set (panes sample_manager) 0
              (set_cursor
                 (Z.min (len listing_a - 1) (2 + 1))
                 (mkPane (at_ ["a"]) 2 listing_a))) sample_manager),
        Ok Next).
Proof.
  assert (H : PaneState_refresh (sample_world [] [], mkPane (at_ ["a"]) 7 [])
              = ((sample_world [] [], mkPane (at_ ["a"]) 3 listing_a), Ok tt))
    by reflexivity.
  assert (Hc : 0 <= 7) by lia.
  destruct cursor_stays_on_an_entry as [Keys [Refresh _]].
  split; [exact H |]. split; [exact Hc |].
  split; [exact (proj1 (Refresh _ _ _ _ H Hc)) |].
  split.
  - repeat constructor; vm_compute; discriminate.
  - exact (proj1 (proj1 (proj2 (Keys KEY_DOWN (sample_world [] [])
                                   sample_manager 0%nat
                                   (mkPane (at_ ["a"]) 2 listing_a)
                                   (at_ ["a"; "notes.txt"]) eq_refl eq_refl))
                        (or_introl eq_refl))).
Defined.

(** The line of [/a/gone], which is not there. *)
Lemma stat_failure_gives_placeholders_witness :
  at_ ["a"; "gone"] <> parent (at_ ["a"; "gone"])
  /\ is_dir sample_fs (at_ ["a"; "gone"]) = Ok false
  /\ is_OSError (missing_error sample_fs (at_ ["a"; "gone"])) = true
  /\ format_entry sample_fs (at_ ["a"; "gone"])
     = Ok (lit "??????????        ? ? gone").
Proof.
  assert (N : at_ ["a"; "gone"] <> parent (at_ ["a"; "gone"]))
    by (vm_compute; discriminate).
  assert (Hd : is_dir sample_fs (at_ ["a"; "gone"]) = Ok false) by reflexivity.
  assert (Hs : stat sample_fs (at_ ["a"; "gone"])
               = Raise (missing_error sample_fs (at_ ["a"; "gone"])))
    by reflexivity.
  assert (He : is_OSError (missing_error sample_fs (at_ ["a"; "gone"])) = true)
    by reflexivity.
  split; [exact N |]. split; [exact Hd |]. split; [exact He |].
  rewrite (proj1 stat_failure_gives_placeholders _ _ _ _ N Hd Hs He).
  vm_compute. reflexivity.
Defined.

(** Renaming [notes.txt] with an empty line typed. *)
Lemma rename_with_empty_name_cancels_witness :
  snd (prompt_raw
         (lit "Rename " ++ name (at_ ["a"; "notes.txt"]) ++ lit " -> ")%list
         (sample_world [] [[]], sample_manager)) = Ok []
  /\ strip (decode_utf8_ignore []) = []
  /\ snd (rename_entry (at_ ["a"; "notes.txt"])
                       (sample_world [] [[]], sample_manager)) = Ok tt
  /\ snd (fst (rename_entry (at_ ["a"; "notes.txt"])
                            (sample_world [] [[]], sample_manager)))
     = set_status (lit "Переименование отменено") sample_manager
  /\ w_fs (fst (fst (rename_entry (at_ ["a"; "notes.txt"])
                                  (sample_world [] [[]], sample_manager))))
     = sample_fs.
Proof.
  assert (H : prompt_raw
                (lit "Rename " ++ name (at_ ["a"; "notes.txt"])
                     ++ lit " -> ")%list
                (sample_world [] [[]], sample_manager)
              = ((fst (fst (prompt_raw
                              (lit "Rename " ++ name (at_ ["a"; "notes.txt"])
                                   ++ lit " -> ")%list
                              (sample_world [] [[]], sample_manager))),
                  sample_manager), Ok []))
    by (apply triple_eta; vm_compute; reflexivity).
  split; [rewrite H; reflexivity |]. split; [reflexivity |].
  destruct (rename_with_empty_name_cancels _ _ _ _ _ H eq_refl)
    as [w' [notice [E [Hfs [Hn _]]]]].
  assert (N : at_ ["a"; "notes.txt"] <> parent (at_ ["a"; "notes.txt"]))
    by (vm_compute; discriminate).
  destruct (Hn N) as [_ ->]. rewrite E. cbn [fst snd].
  split; [reflexivity |]. split; [reflexivity | exact Hfs].
Defined.


Local Close Scope string_scope.

(** * Further properties *)

(** ** Drawing reads only *)

Section Drawing.
Context {P : Platform}.

Lemma keeps_fs_ask_fs {X A} (q : Fs -> result A) : keeps_fs (@ask_fs _ X A q).
Proof. intros s s' r H. injection H as <- _. split; reflexivity. Qed.

Lemma keeps_fs_of_result {X A} (x : result A) : keeps_fs (@of_result _ X A x).
Proof. intros s s' r H. injection H as <- _. split; reflexivity. Qed.

Lemma keeps_fs_self {X} : keeps_fs (@self _ X).
Proof. intros s s' r H. injection H as <- _. split; reflexivity. Qed.

Lemma keeps_fs_for_each {X A} (l : list A) (f : A -> M X unit) :
  (forall a, keeps_fs (f a)) -> keeps_fs (for_each l f).
Proof.
  intros Hf. induction l as [| a r IH]; cbn [for_each].
  - apply keeps_fs_ret.
  - apply keeps_fs_bind; [apply Hf | intros _; exact IH].
Qed.

Ltac keeps_fs_tac :=
  lazymatch goal with
  | |- keeps_fs (bind _ _) =>
    apply keeps_fs_bind; [keeps_fs_tac | intros ?; keeps_fs_tac]
  | |- keeps_fs (for_each _ _) =>
    apply keeps_fs_for_each; intros ?; keeps_fs_tac
  | |- keeps_fs (ret _) => apply keeps_fs_ret
  | |- keeps_fs (on_env _) => apply keeps_fs_on_env
  | |- keeps_fs (ask_fs _) => apply keeps_fs_ask_fs
  | |- keeps_fs (of_result _) => apply keeps_fs_of_result
  | |- keeps_fs self => apply keeps_fs_self
  | |- _ => idtac
  end.

Lemma keeps_fs_draw_pane {X} pane x width is_active :
  keeps_fs (@draw_pane _ X pane x width is_active).
Proof. unfold draw_pane. keeps_fs_tac. Qed.

Lemma keeps_fs_draw_screen : keeps_fs draw_screen.
Proof.
  unfold draw_screen. keeps_fs_tac; apply keeps_fs_draw_pane.
Qed.

(** X1.  Drawing is a pure read of the manager and of the file system:
    however [draw_pane] and the drawing that opens a turn of [run] end
    (also when the window refuses a write or [format_entry] raises), the
    manager, its panes and the file system are what they were; only the
    terminal has changed. *)
Theorem drawing_reads_only :
  (forall X pane x width is_active (w : World) (self_ : X) w' self' r,
      draw_pane pane x width is_active (w, self_) = ((w', self'), r) ->
      w_fs w' = w_fs w /\ self' = self_)
  /\ (forall w fm w' fm' r,
         draw_screen (w, fm) = ((w', fm'), r) ->
         w_fs w' = w_fs w /\ fm' = fm).
Proof.
  split.
  - intros X pane x width is_active w self_ w' self' r H.
    exact (keeps_fs_draw_pane pane x width is_active _ _ _ H).
  - intros w fm w' fm' r H. exact (keeps_fs_draw_screen _ _ _ H).
Qed.
End Drawing.

(** ** The manager stays well formed *)

Section Shape.
Context {P : Platform}.

Lemma keeps_shape_of_self {A} (m : M FileManager A) :
  keeps_self m -> keeps_shape m.
Proof. intros H s s' r Hm Hi. rewrite (H _ _ _ Hm). exact Hi. Qed.

Lemma keeps_shape_bind {A B} (m : M FileManager A) (k : A -> M FileManager B) :
  keeps_shape m -> (forall a, keeps_shape (k a)) -> keeps_shape (bind m k).
Proof.
  intros Hm Hk s s' r H Hi.
  destruct (bind_cases _ _ _ _ _ H) as [[s1 [a [H1 H2]]] | [e [H1 _]]].
  - exact (Hk a _ _ _ H2 (Hm _ _ _ H1 Hi)).
  - exact (Hm _ _ _ H1 Hi).
Qed.

Lemma keeps_shape_try {A} (m : M FileManager A) h :
  keeps_shape m -> (forall e, keeps_shape (h e)) ->
  keeps_shape (try_except m h).
Proof.
  intros Hm Hh s s' r. unfold try_except.
  destruct (m s) as [s1 [a | e]] eqn:E; intros H Hi.
  - injection H as <- _. exact (Hm _ _ _ E Hi).
  - exact (Hh e _ _ _ H (Hm _ _ _ E Hi)).
Qed.

Lemma keeps_shape_status st : keeps_shape (assign (set_status st)).
Proof. intros s s' r H Hi. injection H as <- _. exact Hi. Qed.

Lemma length_list_set {A} (l : list A) n a :
  List.length (list_set l n a) = List.length l.
Proof.
  revert n. induction l as [| x r IH]; intros [| n]; simpl; try reflexivity.
  rewrite IH. reflexivity.
Qed.

Lemma keeps_shape_with_pane {A} i (m : M PaneState A) :
  keeps_shape (with_pane i m).
Proof.
  intros [w fm] s' r. unfold with_pane. cbn [fst snd].
  destruct (py_pos (panes fm) i) as [n |];
    [| intros H Hi; injection H as <- _; exact Hi].
  destruct (nth_error (panes fm) n) as [p |];
    [| intros H Hi; injection H as <- _; exact Hi].
  destruct (m (w, p)) as [[w' p'] r'].
  intros H [Hl Ha]. injection H as <- _. unfold two_panes.
  cbn [snd set_panes panes active]. rewrite length_list_set.
  split; assumption.
Qed.

(** The Tab key: the other pane becomes the active one. *)
Lemma switch_pane w fm :
  (o <- other_index ;; assign (set_active o)) (w, fm)
  = ((w, set_active (1 - active fm) fm), Ok tt).
Proof. reflexivity. Qed.

Lemma keeps_shape_switch :
  keeps_shape (o <- other_index ;; assign (set_active o)).
Proof.
  intros [w fm] s' r H Hi. rewrite switch_pane in H.
  apply pair_inj in H. destruct H as [<- _]. unfold two_panes in *.
  cbn [snd set_active panes active] in *. lia.
Qed.

Lemma keeps_shape_for_each {A} (l : list A) (f : A -> M FileManager unit) :
  (forall a, keeps_shape (f a)) -> keeps_shape (for_each l f).
Proof.
  intros Hf. induction l as [| a r IH]; cbn [for_each].
  - apply keeps_shape_of_self, keeps_self_ret.
  - apply keeps_shape_bind; [apply Hf | intros _; exact IH].
Qed.

Lemma keeps_shape_refresh : keeps_shape FileManager_refresh.
Proof.
  unfold FileManager_refresh. apply keeps_shape_bind.
  - apply keeps_shape_of_self, keeps_self_self.
  - intros fm. apply keeps_shape_for_each. intros n.
    apply keeps_shape_with_pane.
Qed.

Lemma keeps_self_other_index : keeps_self other_index.
Proof.
  unfold other_index.
  apply keeps_self_bind; [apply keeps_self_self | intros; apply keeps_self_ret].
Qed.

(** Follows the shape of a computation down to its calls. *)
Ltac keeps_shape_tac :=
  lazymatch goal with
  | |- keeps_shape (bind other_index (fun o => assign (set_active o))) =>
    apply keeps_shape_switch
  | |- keeps_shape (bind _ _) =>
    apply keeps_shape_bind; [keeps_shape_tac | intros ?; keeps_shape_tac]
  | |- keeps_shape (if ?b then _ else _) => destruct b; keeps_shape_tac
  | |- keeps_shape (match ?x with [] => _ | _ :: _ => _ end) =>
    destruct x; keeps_shape_tac
  | |- keeps_shape (try_except _ _) =>
    apply keeps_shape_try; [keeps_shape_tac | intros ?; keeps_shape_tac]
  | |- keeps_shape (assign (set_status _)) => apply keeps_shape_status
  | |- keeps_shape FileManager_refresh => apply keeps_shape_refresh
  | |- keeps_shape (with_pane _ _) => apply keeps_shape_with_pane
  | |- keeps_shape other_index =>
    apply keeps_shape_of_self, keeps_self_other_index
  | |- keeps_shape (copy_or_move _ _ _) =>
    apply keeps_shape_of_self, keeps_self_copy_or_move
  | |- keeps_shape (prompt _) => apply keeps_shape_of_self, keeps_self_prompt
  | |- keeps_shape (ret _) => apply keeps_shape_of_self, keeps_self_ret
  | |- keeps_shape (raise _) => apply keeps_shape_of_self, keeps_self_raise
  | |- keeps_shape (of_result _) =>
    apply keeps_shape_of_self, keeps_self_of_result
  | |- keeps_shape self => apply keeps_shape_of_self, keeps_self_self
  | |- keeps_shape (ask_fs _) => apply keeps_shape_of_self, keeps_self_ask_fs
  | |- keeps_shape (on_fs _) => apply keeps_shape_of_self, keeps_self_on_fs
  | |- keeps_shape (on_env _) => apply keeps_shape_of_self, keeps_self_on_env
  | |- _ => idtac
  end.

Lemma keeps_shape_guarded key ix entry : keeps_shape (guarded key ix entry).
Proof.
  unfold guarded, on_exception, try_body, open_entry, delete_entry,
    rename_entry, make_dir.
  keeps_shape_tac.
Qed.

(** In a well-formed manager the two look-ups that open a turn succeed, and
    so does the look-up of the other pane. *)
Lemma well_formed_selects fm :
  well_formed fm ->
  exists pane entry other,
    py_index (panes fm) (active fm) = Ok pane
    /\ PaneState_selected pane = Ok entry
    /\ nth_error (entries pane) (Z.to_nat (cursor pane)) = Some entry
    /\ py_index (panes fm) (1 - active fm) = Ok other.
Proof.
  intros [[Hl Ha] Hc]. destruct fm as [ps a st]. cbn [panes active] in *.
  destruct ps as [| p0 [| p1 [| p2 r]]]; try discriminate.
  inversion Hc as [| ? ? H0 Hc']; subst. inversion Hc' as [| ? ? H1 _]; subst.
  assert (Sel : forall p, cursor_ok p ->
             exists entry, PaneState_selected p = Ok entry
                           /\ nth_error (entries p) (Z.to_nat (cursor p))
                              = Some entry).
  { intros p [Hlo Hhi]. unfold PaneState_selected, py_index, py_pos.
    destruct (entries p) as [| e0 es] eqn:Ee; [cbn in Hhi; lia |].
    replace ((0 <=? cursor p) && (cursor p <? len (e0 :: es))) with true
      by (symmetry; apply andb_true_intro; split;
          [apply Z.leb_le | apply Z.ltb_lt]; lia).
    destruct (nth_error (e0 :: es) (Z.to_nat (cursor p))) as [e |] eqn:En.
    - exists e. split; reflexivity.
    - exfalso. apply nth_error_None in En. unfold len in Hhi. lia. }
  destruct Ha as [-> | ->].
  - destruct (Sel _ H0) as [entry [E1 E2]].
    exists p0, entry, p1. repeat split; assumption || reflexivity.
  - destruct (Sel _ H1) as [entry [E1 E2]].
    exists p1, entry, p0. repeat split; assumption || reflexivity.
Qed.

(** X2.  The manager stays well formed all through [run]: the manager
    [FileManager] is made with has two panes and pane 0 active; once the
    refresh that opens [run] has returned, every cursor is on an entry;
    every turn of the loop that goes on to the next one keeps two panes,
    an active index of 0 or 1 and every cursor on an entry; and in such a
    manager the look-ups [self.panes[self.active]], [pane.selected()] and
    [self.panes[self.other_index()]] never raise [IndexError]. *)
Theorem run_keeps_manager_well_formed :
  (forall left right w s',
      FileManager_refresh (w, FileManager_init left right) = (s', Ok tt) ->
      well_formed (snd s'))
  /\ (forall s s',
         well_formed (snd s) ->
         loop_body s = (s', Ok Next) ->
         well_formed (snd s'))
  /\ (forall fm,
         well_formed fm ->
         exists pane entry other,
           py_index (panes fm) (active fm) = Ok pane
           /\ PaneState_selected pane = Ok entry
           /\ nth_error (entries pane) (Z.to_nat (cursor pane)) = Some entry
           /\ py_index (panes fm) (1 - active fm) = Ok other).
Proof.
  split; [| split].
  - intros left right w [w' fm'] H. cbn [snd]. split.
    + apply (keeps_shape_refresh _ _ _ H). cbn [snd].
      split; [reflexivity | left; reflexivity].
    + apply (refresh_all_ok _ _ _ _ H). cbn [FileManager_init panes].
      repeat constructor; cbn [cursor]; lia.
  - intros [w fm] s' [Hs Hc] H. unfold loop_body in H. cbn [snd] in *.
    destruct (bind_ok_inv _ _ _ _ _ H) as [[w1 fm1] [hw [Hd H1]]].
    destruct (keeps_fs_draw_screen _ _ _ Hd) as [_ E]. cbn [snd] in E.
    subst fm1.
    destruct (bind_ok_inv _ _ _ _ _ H1) as [[w2 fm2] [key [Hk H2]]].
    pose proof (keeps_self_on_env _ _ _ _ Hk) as E. cbn [snd] in E.
    subst fm2.
    destruct (react_next _ _ _ _ H2)
      as [pane [entry [[w3 fm3] [_ [_ [Hg Hr]]]]]].
    destruct s' as [w4 fm4]. cbn [snd]. split.
    + apply (keeps_shape_refresh _ _ _ Hr). cbn [snd].
      exact (keeps_shape_guarded _ _ _ _ _ _ Hg Hs).
    + assert (Hi : Forall pane_inv (panes fm)).
      { rewrite Forall_forall in *. intros x Hx. apply cursor_ok_inv, Hc, Hx. }
      pose proof (keeps_panes_guarded _ _ _ _ _ _ Hg Hi) as Hi1.
      cbn [snd] in Hi1. apply (refresh_all_ok _ _ _ _ Hr).
      rewrite Forall_forall in *. intros x Hx. exact (proj1 (Hi1 x Hx)).
  - exact well_formed_selects.
Qed.
End Shape.

(** ** Leaving, and opening an entry *)

Section Keys.
Context {P : Platform}.

Lemma try_body_quit key ix entry s :
  key = ord_q \/ key = 27 -> try_body key ix entry s = (s, Ok Returned).
Proof. intros [-> | ->]; reflexivity. Qed.

(** X3.  The quit keys end [run] at once: when a turn of the loop on a
    well-formed manager has drawn the screen and reads [q] or Escape,
    [run] returns; nothing is done to the file system or to the manager in
    that turn, and no refresh follows. *)
Theorem quit_key_ends_run :
  forall key s0 s1 hw s n,
    key = ord_q \/ key = 27 ->
    well_formed (snd s0) ->
    draw_screen s0 = (s1, Ok hw) ->
    on_env getch s1 = (s, Ok key) ->
    run_loop (S n) s0 = (s, Ok (Some tt))
    /\ w_fs (fst s) = w_fs (fst s0) /\ snd s = snd s0.
Proof.
  intros key s0 s1 hw s n Hk Hwf Hd Hg.
  destruct (keeps_fs_draw_screen _ _ _ Hd) as [F1 E1].
  destruct (keeps_fs_on_env _ _ _ _ Hg) as [F2 E2].
  assert (Es : snd s = snd s0) by congruence.
  split; [| split; [congruence | exact Es]].
  rewrite <- Es in Hwf.
  destruct (well_formed_selects _ Hwf) as [pane [entry [other [Hp [He _]]]]].
  assert (Hr : react key s = (s, Ok Returned)).
  { destruct s as [w fm]. cbn [snd] in *.
    rewrite (react_unfold _ _ _ _ _ Hp He).
    rewrite (bind_ok _ _ _ _ _
               (guarded_passes _ _ _ _ _ _ (try_body_quit _ _ _ _ Hk))).
    reflexivity. }
  assert (Hb : loop_body s0 = (s, Ok Returned)).
  { unfold loop_body. rewrite (bind_ok _ _ _ _ _ Hd).
    rewrite (bind_ok _ _ _ _ _ Hg). exact Hr. }
  cbn [run_loop]. rewrite (bind_ok _ _ _ _ _ Hb). reflexivity.
Qed.

(** X4.  Opening an entry.  On a directory the active pane takes its
    resolved path and the cursor goes to 0; the listing is left for the
    next refresh, and the other pane, the status line and the world are
    untouched.  On anything else the opener is started, and whether or not
    that works [open_entry] returns: a failure of [Popen] only goes into
    the status line; the panes and the file system are untouched. *)
Theorem open_entry_navigates_or_launches :
  (forall entry w fm r n p,
      is_dir (w_fs w) entry = Ok true ->
      resolve (w_fs w) entry = Ok r ->
      py_pos (panes fm) (active fm) = Some n ->
      nth_error (panes fm) n = Some p ->
      open_entry entry (w, fm)
      = ((w, set_panes (list_set (panes fm) n (mkPane r 0 (entries p))) fm),
         Ok tt))
  /\ (forall entry w fm,
         is_dir (w_fs w) entry = Ok false ->
         open_entry entry (w, fm)
         = ((mkWorld (w_fs w)
                     (fst (Popen [lit "xdg-open"; Path_str entry] (w_env w))),
             set_status
               (match snd (Popen [lit "xdg-open"; Path_str entry] (w_env w))
                with
                | Ok _ => lit "Открывается: " ++ name entry
                | Raise exc => lit "Не удалось открыть: " ++ exn_str exc
                end) fm),
            Ok tt)).
Proof.
  split.
  - intros entry w fm r n p Hd Hr Hn Hp. unfold open_entry.
    unfold bind at 1. unfold ask_fs at 1. cbn [fst snd]. rewrite Hd.
    unfold bind at 1. unfold ask_fs at 1. cbn [fst snd]. rewrite Hr.
    unfold bind at 1. unfold self at 1. cbn [fst snd].
    unfold bind at 1. rewrite (with_pane_at _ _ _ _ _ _ Hn Hp).
    change (assign (set_path r) (w, p)) with ((w, set_path r p), @Ok unit tt).
    cbn [fst snd].
    unfold bind at 1. unfold self at 1. cbn [fst snd set_panes active panes].
    assert (Hn' : py_pos (list_set (panes fm) n (set_path r p)) (active fm)
                  = Some n).
    { unfold py_pos, len in *. rewrite length_list_set. exact Hn. }
    assert (Hp' : nth_error (list_set (panes fm) n (set_path r p)) n
                  = Some (set_path r p)).
    { clear Hn Hn'. revert n Hp. generalize (panes fm).
      induction l as [| x l IH]; intros [| n] H; try discriminate.
      - reflexivity.
      - simpl. apply IH. exact H. }
    rewrite (with_pane_at w
               (set_panes (list_set (panes fm) n (set_path r p)) fm)
               (active fm) n (set_path r p) _ Hn' Hp').
    change (assign (set_cursor 0) (w, set_path r p))
      with ((w, set_cursor 0 (set_path r p)), @Ok unit tt).
    cbn [fst snd set_panes panes active status set_cursor set_path
         path cursor entries].
    unfold set_panes. cbn [panes active status]. do 3 f_equal.
    clear. revert n. generalize (panes fm).
    induction l as [| x l IH]; intros [| n]; simpl; try reflexivity.
    rewrite IH. reflexivity.
  - intros entry w fm Hd. unfold open_entry.
    unfold bind at 1. unfold ask_fs at 1. cbn [fst snd]. rewrite Hd.
    cbv zeta. unfold try_except. unfold bind at 1. unfold on_env at 1.
    cbn [fst snd].
    destruct (Popen [lit "xdg-open"; Path_str entry] (w_env w))
      as [env' [[] | e]]; cbn [fst snd]; unfold assign; reflexivity.
Qed.
End Keys.

(** ** The sort is stable *)

Lemma str_compare_refl s : str_compare s s = Eq.
Proof.
  induction s as [| c r IH]; [reflexivity |]. simpl.
  rewrite N.compare_refl. exact IH.
Qed.

Lemma key_eqb_eq a b : key_eqb a b = true <-> a = b.
Proof.
  destruct a as [a1 a2], b as [b1 b2]. unfold key_eqb. cbn [fst snd].
  destruct (str_eq_dec a2 b2) as [E | N].
  - rewrite andb_true_r, Bool.eqb_true_iff. split; [congruence |].
    intros H. injection H as -> _. reflexivity.
  - rewrite andb_false_r. split; [discriminate | congruence].
Qed.

Lemma key_lt_irrefl k : key_lt k k = false.
Proof.
  destruct k as [b s]. unfold key_lt, str_ltb. cbn [fst snd].
  rewrite Bool.eqb_reflx, str_compare_refl. reflexivity.
Qed.

Section Stability.
Context {A : Type}.

Lemma filter_insert_keyed k (x : sort_key * A) l :
  filter (fun y => key_eqb (fst y) k) (insert_keyed x l)
  = filter (fun y => key_eqb (fst y) k) (x :: l).
Proof.
  induction l as [| y r IH]; [reflexivity |]. cbn [insert_keyed].
  destruct (key_lt (fst y) (fst x)) eqn:E; [| reflexivity].
  cbn [filter] in *. rewrite IH.
  destruct (key_eqb (fst x) k) eqn:Ex; [| reflexivity].
  destruct (key_eqb (fst y) k) eqn:Ey; [| reflexivity].
  apply key_eqb_eq in Ex, Ey. rewrite Ex, Ey, key_lt_irrefl in E.
  discriminate.
Qed.

(** Items of one key keep the order they came in. *)
Lemma sort_keyed_stable k (l : list (sort_key * A)) :
  filter (fun y => key_eqb (fst y) k) (sort_keyed l)
  = filter (fun y => key_eqb (fst y) k) l.
Proof.
  induction l as [| x r IH]; [reflexivity |]. cbn [sort_keyed].
  rewrite filter_insert_keyed. cbn [filter]. rewrite IH. reflexivity.
Qed.
End Stability.

Section StableListing.
Context {P : Platform}.

Lemma filter_decorated fs items keyed k :
  decorate fs items = Ok keyed ->
  forall l, (forall x, In x l -> In x keyed) ->
  filter (has_key fs k) (map snd l)
  = map snd (filter (fun y => key_eqb (fst y) k) l).
Proof.
  intros Hd. destruct (decorate_spec _ _ _ Hd) as [_ Hk].
  rewrite Forall_forall in Hk.
  induction l as [| [k' p] r IH]; intros Hin; [reflexivity |].
  cbn [map filter fst snd].
  rewrite IH by (intros x Hx; apply Hin; right; exact Hx).
  destruct (Hk (k', p) (Hin _ (or_introl eq_refl))) as [H1 H2].
  cbn [fst snd] in H1, H2.
  assert (E : has_key fs k p = key_eqb k' k).
  { unfold has_key, entry_key. rewrite H1. cbn [rbind]. rewrite <- H2.
    destruct k'; reflexivity. }
  rewrite E. destruct (key_eqb k' k); reflexivity.
Qed.

(** X5.  The sort of a listing is stable: entries with the same key (both
    regular files or both not, and the same name once case is dropped)
    stand in the listing in the order [iterdir] gave them. *)
Theorem refresh_sort_is_stable :
  forall w s w' s' items k,
    PaneState_refresh (w, s) = ((w', s'), Ok tt) ->
    iterdir (w_fs w) (path s') = Ok items ->
    filter (has_key (w_fs w) k) (tl (entries s'))
    = filter (has_key (w_fs w) k) items.
Proof.
  intros w s w' s' items k H Hi.
  destruct (refresh_returns _ _ _ _ H)
    as [p0 [p [items' [keyed [_ [_ [Hi' [Hd [_ [Hp [He _]]]]]]]]]]].
  rewrite Hp, Hi' in Hi. injection Hi as ->.
  rewrite He. cbn [tl].
  rewrite (filter_decorated _ _ _ k Hd (sort_keyed keyed)).
  - rewrite sort_keyed_stable.
    rewrite <- (filter_decorated _ _ _ k Hd keyed (fun x H => H)).
    rewrite (proj1 (decorate_spec _ _ _ Hd)). reflexivity.
  - intros x Hx.
    exact (Permutation_in _ (sort_keyed_perm keyed) Hx).
Qed.
End StableListing.

(** ** The further properties at work on the sample tree *)

Local Open Scope string_scope.

(** Drawing the sample manager on the 24 by 80 terminal. *)
Lemma drawing_reads_only_witness :
  snd (draw_screen (sample_world [] [], sample_manager)) = Ok (24, 80)
  /\ w_fs (fst (fst (draw_screen (sample_world [] [], sample_manager))))
     = sample_fs
  /\ snd (fst (draw_screen (sample_world [] [], sample_manager)))
     = sample_manager.
Proof.
  split; [vm_compute; reflexivity |].
  destruct drawing_reads_only as [_ H].
  exact (H (sample_world [] []) sample_manager _ _ _
           (triple_eta (draw_screen (sample_world [] [], sample_manager))
                       _ _ eq_refl eq_refl)).
Defined.

(** The sample manager is well formed, and stays so over a turn with the
    down key. *)
Lemma run_keeps_manager_well_formed_witness :
  well_formed sample_manager
  /\ snd (loop_body (sample_world [KEY_DOWN] [], sample_manager)) = Ok Next
  /\ well_formed
       (snd (fst (loop_body (sample_world [KEY_DOWN] [], sample_manager))))
  /\ PaneState_selected (mkPane (at_ ["a"]) 2 listing_a)
     = Ok (at_ ["a"; "notes.txt"]).
Proof.
  assert (Hw : well_formed sample_manager).
  { split; [split; [reflexivity | left; reflexivity] |].
    repeat constructor; vm_compute; discriminate. }
  assert (Hn : snd (loop_body (sample_world [KEY_DOWN] [], sample_manager))
               = Ok Next) by (vm_compute; reflexivity).
  destruct run_keeps_manager_well_formed as [_ [Turn Sel]].
  split; [exact Hw |]. split; [exact Hn |]. split.
  - exact (Turn (sample_world [KEY_DOWN] [], sample_manager)
             (fst (loop_body (sample_world [KEY_DOWN] [], sample_manager)))
             Hw (pair_eta _ _ Hn)).
  - destruct (Sel sample_manager Hw) as [pane [entry [other [H1 [H2 _]]]]].
    reflexivity.
Defined.

(** The key [q] on the sample manager. *)
Lemma quit_key_ends_run_witness :
  let s0 := (sample_world [ord_q] [], sample_manager) in
  let s := fst (on_env getch (fst (draw_screen s0))) in
  well_formed sample_manager
  /\ snd (draw_screen s0) = Ok (24, 80)
  /\ snd (on_env getch (fst (draw_screen s0))) = Ok ord_q
  /\ run_loop 1 s0 = (s, Ok (Some tt))
  /\ w_fs (fst s) = sample_fs
  /\ snd s = sample_manager.
Proof.
  intros s0 s.
  assert (Hw : well_formed sample_manager).
  { split; [split; [reflexivity | left; reflexivity] |].
    repeat constructor; vm_compute; discriminate. }
  assert (Hd : snd (draw_screen s0) = Ok (24, 80)) by (vm_compute; reflexivity).
  assert (Hg : snd (on_env getch (fst (draw_screen s0))) = Ok ord_q)
    by (vm_compute; reflexivity).
  split; [exact Hw |]. split; [exact Hd |]. split; [exact Hg |].
  exact (quit_key_ends_run ord_q s0 _ _ s 0%nat (or_introl eq_refl) Hw
           (pair_eta _ _ Hd) (pair_eta _ _ Hg)).
Defined.

(** Enter on the directory [/a/b], and on the file [/a/notes.txt] where
    no opener is installed. *)
Lemma open_entry_navigates_or_launches_witness :
  is_dir sample_fs (at_ ["a"; "b"]) = Ok true
  /\ open_entry (at_ ["a"; "b"]) (sample_world [] [], sample_manager)
     = ((sample_world [] [],
         set_panes
           (list_set (panes sample_manager) 0
                     (mkPane (at_ ["a"; "b"]) 0 listing_a)) sample_manager),
        Ok tt)
  /\ is_dir sample_fs (at_ ["a"; "notes.txt"]) = Ok false
  /\ snd (open_entry (at_ ["a"; "notes.txt"])
                     (sample_world [] [], sample_manager)) = Ok tt
  /\ status (snd (fst (open_entry (at_ ["a"; "notes.txt"])
                                  (sample_world [] [], sample_manager))))
     = lit "Не удалось открыть: [Errno 2] No such file or directory: 'xdg-open'".
Proof.
  assert (Hd : is_dir (w_fs (sample_world [] [])) (at_ ["a"; "b"]) = Ok true)
    by reflexivity.
  assert (Hf : is_dir (w_fs (sample_world [] [])) (at_ ["a"; "notes.txt"])
               = Ok false) by reflexivity.
  destruct open_entry_navigates_or_launches as [Dir_ Other].
  split; [exact Hd |]. split.
  - exact (Dir_ (at_ ["a"; "b"]) (sample_world [] []) sample_manager
             (at_ ["a"; "b"]) 0%nat (mkPane (at_ ["a"]) 2 listing_a)
             Hd eq_refl eq_refl eq_refl).
  - split; [exact Hf |].
    rewrite (Other (at_ ["a"; "notes.txt"]) (sample_world [] [])
               sample_manager Hf).
    split; [reflexivity | vm_compute; reflexivity].
Defined.

(** [/d] holds [Readme] and [README], which have one key: the listing
    keeps them in the order [iterdir] gave them, [Readme] first. *)
Lemma refresh_sort_is_stable_witness :
  let w := mkWorld twins_fs (sample_console [] []) in
  let listing := [at_ []; at_ ["d"; "b"]; at_ ["d"; "Readme"];
                  at_ ["d"; "README"]] in
  PaneState_refresh (w, mkPane (at_ ["d"]) 0 [])
  = ((w, mkPane (at_ ["d"]) 0 listing), Ok tt)
  /\ iterdir twins_fs (at_ ["d"])
     = Ok [at_ ["d"; "Readme"]; at_ ["d"; "b"]; at_ ["d"; "README"]]
  /\ entry_key twins_fs (at_ ["d"; "Readme"]) = Ok (true, lit "readme")
  /\ entry_key twins_fs (at_ ["d"; "README"]) = Ok (true, lit "readme")
  /\ filter (has_key twins_fs (true, lit "readme"))
            [at_ ["d"; "Readme"]; at_ ["d"; "b"]; at_ ["d"; "README"]]
     = [at_ ["d"; "Readme"]; at_ ["d"; "README"]]
  /\ filter (has_key twins_fs (true, lit "readme")) (tl listing)
     = [at_ ["d"; "Readme"]; at_ ["d"; "README"]].
Proof.
  intros w listing.
  assert (H : PaneState_refresh (w, mkPane (at_ ["d"]) 0 [])
              = ((w, mkPane (at_ ["d"]) 0 listing), Ok tt))
    by reflexivity.
  assert (Hi : iterdir (w_fs w) (path (mkPane (at_ ["d"]) 0 listing))
               = Ok [at_ ["d"; "Readme"]; at_ ["d"; "b"];
                     at_ ["d"; "README"]]) by reflexivity.
  assert (Hf : filter (has_key twins_fs (true, lit "readme"))
                 [at_ ["d"; "Readme"]; at_ ["d"; "b"]; at_ ["d"; "README"]]
               = [at_ ["d"; "Readme"]; at_ ["d"; "README"]])
    by (vm_compute; reflexivity).
  split; [exact H |]. split; [exact Hi |].
  split; [vm_compute; reflexivity |]. split; [vm_compute; reflexivity |].
  split; [exact Hf |].
  exact (eq_trans
           (refresh_sort_is_stable _ _ _ _ _ (true, lit "readme") H Hi) Hf).
Defined.
